(** * rp/report.go: the JUnit XML report loader and its query facade

    A shallow embedding of [src/rp/report.go].  Go values are modelled as
    follows.

    - [int] is [Z]; a slice is a [list], indexed by a [Z] with the run-time
      bounds check written out ([index]); a pointer that may be [nil] is an
      [option].
    - [float64] is a primitive binary64 float.
    - [time.Time] is the instant in nanoseconds ([Z]), [time.Duration] a
      number of nanoseconds; [t.Add(d)] is addition and [t.Before(u)] the
      strict order on instants.
    - A run-time panic is an explicit outcome ([Panics]).
    - The calls into [os], [io/ioutil], [encoding/xml], [path/filepath] and
      [sort] are the fields of a [Platform]; the two helpers of package [rp]
      that live in another file, [parseTimeStamp] and [secondsToDuration],
      are parameters.
    - The effects of the loader (log lines, files opened and closed) are
      recorded in a trace of [event]s, in the order in which they happen. *)

From Stdlib Require Import ZArith String Ascii.
From Stdlib.Strings Require Import Byte.
From Stdlib Require Import Floats.PrimFloat Floats.FloatOps Floats.SpecFloat.
From stdpp Require Import base tactics option list strings sorting pretty.

Local Open Scope Z_scope.

(** ** Values of the Go run time *)

Definition Time := Z.
Definition Duration := Z.

Definition Time_Add (t : Time) (d : Duration) : Time := t + d.
Definition Time_Before (t u : Time) : bool := bool_decide (t < u).
Definition Time_After (t u : Time) : bool := bool_decide (u < t).

Inductive panic :=
| IndexOutOfRange (i len : Z)
| NilDereference.

Inductive outcome (A : Type) :=
| Returns (a : A)
| Panics (p : panic).
Arguments Returns {A} a.
Arguments Panics {A} p.

Definition bind {A B} (m : outcome A) (k : A -> outcome B) : outcome B :=
  match m with
  | Returns a => k a
  | Panics p => Panics p
  end.

Notation "'do' x <- m ; k" := (bind m (fun x => k))
  (at level 10, x name, m at level 100, k at level 200).

(** [s[i]] on a slice: the bounds check of the Go run time. *)
Definition index {A} (s : list A) (i : Z) : outcome A :=
  if bool_decide (0 <= i < Z.of_nat (length s)) then
    match s !! Z.to_nat i with
    | Some a => Returns a
    | None => Panics (IndexOutOfRange i (Z.of_nat (length s)))
    end
  else Panics (IndexOutOfRange i (Z.of_nat (length s))).

(** [p.field] through a pointer that may be nil. *)
Definition deref {A} (p : option A) : outcome A :=
  match p with
  | Some a => Returns a
  | None => Panics NilDereference
  end.

(** ** The decoded report: [xmlSuite], [xmlTest], [xmlFailure] *)

Record xmlFailure := {
  Failure_Type : string;
  Failure_Message : string;
  Failure_Details : string;
}.

Record xmlTest := {
  Case_Name : string;
  ClassName : string;
  Case_Time : float;
  Failure : option xmlFailure;
}.

Record xmlProperties := {}.

Record xmlSuite := {
  XMLName : string;
  ID : Z;
  Name : string;
  PackageName : string;
  TimeStamp : string;
  Suite_Time : float;
  HostName : string;
  Tests : Z;
  Failures : Z;
  Errors : Z;
  Properties : xmlProperties;
  Cases : list xmlTest;
  SystemOut : string;
  SystemErr : string;
}.

Record XMLReport := { xmlSuites : list xmlSuite }.

(** ** The records handed to the reporting layer

    Their declarations are in another file of the package; the fields are
    those the facade assigns. *)

Inductive TestItemType := TestItemTypeSuite | TestItemTypeStep.
Inductive ExecutionStatus :=
| ExecutionStatusPassed
| ExecutionStatusFailed
| ExecutionStatusSkipped.
Inductive LogLevel := LogLevelError | LogLevelInfo.

Record TestItem := {
  Item_Type : TestItemType;
  Item_Name : string;
  StartTime : Time;
}.

Record ExecutionResult := {
  EndTime : Time;
  Status : ExecutionStatus;
}.

Record LogMessage := {
  Log_Time : Time;
  Level : LogLevel;
  Message : string;
}.

(** ** The query facade *)

Section Facade.

Variable parseTimeStamp : string -> Time.
Variable secondsToDuration : float -> Duration.

Definition SuitesCount (report : XMLReport) : Z :=
  Z.of_nat (length (xmlSuites report)).

Definition TesCaseCount (report : XMLReport) (i : Z) : outcome Z :=
  do xSuite <- index (xmlSuites report) i;
  Returns (Z.of_nat (length (Cases xSuite))).

Definition LaunchStartTime (report : XMLReport) : outcome Time :=
  do first <- index (xmlSuites report) 0;
  Returns (parseTimeStamp (TimeStamp first)).

Definition LaunchEndTime (report : XMLReport) : outcome Time :=
  let lastIndex := Z.of_nat (length (xmlSuites report)) - 1 in
  do last1 <- index (xmlSuites report) lastIndex;
  let lastSuiteStart := parseTimeStamp (TimeStamp last1) in
  do last2 <- index (xmlSuites report) lastIndex;
  let d := secondsToDuration (Suite_Time last2) in
  Returns (Time_Add lastSuiteStart d).

Definition SuiteResult (report : XMLReport) (i : Z) : outcome ExecutionResult :=
  do xSuite <- index (xmlSuites report) i;
  let suiteStart := parseTimeStamp (TimeStamp xSuite) in
  let d := secondsToDuration (Suite_Time xSuite) in
  let suiteEnd := Time_Add suiteStart d in
  let status :=
    if Tests xSuite =? 0 then ExecutionStatusSkipped
    else if Failures xSuite >? 0 then ExecutionStatusFailed
    else if Errors xSuite >? 0 then ExecutionStatusFailed
    else ExecutionStatusPassed in
  Returns {| EndTime := suiteEnd; Status := status |}.

Definition TestCase (report : XMLReport) (i j : Z) : outcome TestItem :=
  do xSuite <- index (xmlSuites report) i;
  let suiteStart := parseTimeStamp (TimeStamp xSuite) in
  do xCase <- index (Cases xSuite) j;
  Returns {| Item_Type := TestItemTypeStep;
             Item_Name := Case_Name xCase;
             StartTime := suiteStart |}.

Definition TestCaseResult (report : XMLReport) (i j : Z) : outcome ExecutionResult :=
  do xSuite <- index (xmlSuites report) i;
  let suiteStart := parseTimeStamp (TimeStamp xSuite) in
  do xCase <- index (Cases xSuite) j;
  let d := secondsToDuration (Case_Time xCase) in
  let xCaseEnd := Time_Add suiteStart d in
  let status :=
    match Failure xCase with
    | Some _ => ExecutionStatusFailed
    | None => ExecutionStatusPassed
    end in
  Returns {| EndTime := xCaseEnd; Status := status |}.

Definition HasTestCaseFailure (report : XMLReport) (i j : Z) : outcome bool :=
  do xSuite <- index (xmlSuites report) i;
  do xCase <- index (Cases xSuite) j;
  Returns (bool_decide (Failure xCase <> None)).

Definition TestCaseFailure (report : XMLReport) (i j : Z) : outcome LogMessage :=
  do xSuite <- index (xmlSuites report) i;
  let suiteStart := parseTimeStamp (TimeStamp xSuite) in
  do xCase <- index (Cases xSuite) j;
  let d := secondsToDuration (Case_Time xCase) in
  let xCaseEnd := Time_Add suiteStart d in
  do failure <- deref (Failure xCase);
  Returns {| Log_Time := xCaseEnd;
             Level := LogLevelError;
             Message := Failure_Message failure |}.

Definition TestCaseFailureDetails (report : XMLReport) (i j : Z) : outcome LogMessage :=
  do xSuite <- index (xmlSuites report) i;
  let suiteStart := parseTimeStamp (TimeStamp xSuite) in
  do xCase <- index (Cases xSuite) j;
  let d := secondsToDuration (Case_Time xCase) in
  let xCaseEnd := Time_Add suiteStart d in
  do failure <- deref (Failure xCase);
  Returns {| Log_Time := xCaseEnd;
             Level := LogLevelInfo;
             Message := Failure_Details failure |}.

End Facade.

(** ** The platform under the loader *)

(** A Go [error] value: one made by [errors.New] in this package, or one
    handed back by a library call. *)
Inductive error :=
| errorString (s : string)
| libError (pkg msg : string).

Inductive result (A : Type) :=
| Ok (a : A)
| Err (e : error).
Arguments Ok {A} a.
Arguments Err {A} e.

Definition is_Err {A} (r : result A) : Prop :=
  match r with Ok _ => False | Err _ => True end.

(** The part of [os.FileInfo] the loader reads. *)
Record FileInfo := {
  FileInfo_Name : string;
  IsDir : bool;
}.

(** An open [*os.File], named by its descriptor. *)
Definition File := Z.

Record Platform := {
  ioutil_ReadDir : string -> result (list FileInfo);
  os_Open : string -> result File;
  ioutil_ReadAll : File -> result (list byte);
  xml_Unmarshal : list byte -> result xmlSuite;
  filepath_Join : string -> string -> string;
  sort_Slice : (xmlSuite -> xmlSuite -> bool) -> list xmlSuite -> list xmlSuite;
}.

(** [filepath.Ext]: scan the path from its end down to the last separator
    and return the suffix that starts at the first dot met. *)
Definition IsPathSeparator (c : ascii) : bool := bool_decide (c = "/"%char).

Fixpoint Ext_scan (rpath suffix : list ascii) : list ascii :=
  match rpath with
  | [] => []
  | c :: rest =>
      if IsPathSeparator c then []
      else if bool_decide (c = "."%char) then c :: suffix
      else Ext_scan rest (c :: suffix)
  end.

Definition filepath_Ext (path : string) : string :=
  string_of_list_ascii (Ext_scan (rev (list_ascii_of_string path)) []).

(** What the loader does to the world, in order. *)
Inductive event :=
| EvReadDir (dir : string)
| EvDebugf (name : string)
| EvError (err : error)
| EvOpen (path : string) (xmlFile : option File)
| EvReadAll (xmlFile : File)
| EvUnmarshal (b : list byte)
| EvClose (xmlFile : option File).

(** The handles open after a trace, most recently opened first.  Closing a
    nil file does nothing. *)
Fixpoint release (h : File) (held : list File) : list File :=
  match held with
  | [] => []
  | h' :: rest => if bool_decide (h = h') then rest else h' :: release h rest
  end.

Definition track (held : list File) (e : event) : list File :=
  match e with
  | EvOpen _ (Some h) => h :: held
  | EvClose (Some h) => release h held
  | _ => held
  end.

Definition open_handles (tr : list event) : list File :=
  fold_left track tr [].

(** ** The loader *)

(** The variables of [parseXMLReport] that live across iterations, with the
    stack of deferred [Close] calls and the trace so far. *)
Record loadState := {
  xSuites : list xmlSuite;
  deferred : list (option File);
  trace : list event;
}.

(** The handles open during the loop are those whose [Close] is deferred. *)
Definition handles_deferred (st : loadState) : Prop :=
  open_handles (trace st) = omap id (deferred st).

Section Loader.

Variable P : Platform.
Variable parseTimeStamp : string -> Time.

Definition emit (evs : list event) (st : loadState) : loadState :=
  {| xSuites := xSuites st; deferred := deferred st; trace := trace st ++ evs |}.

Definition defer_Close (xmlFile : option File) (st : loadState) : loadState :=
  {| xSuites := xSuites st; deferred := xmlFile :: deferred st; trace := trace st |}.

Definition append (xSuite : xmlSuite) (st : loadState) : loadState :=
  {| xSuites := xSuites st ++ [xSuite]; deferred := deferred st; trace := trace st |}.

(** The body of the [for] loop, for the entry [f].  [defer xmlFile.Close()]
    comes before the test of [err]: the call is pushed on the stack of
    deferred calls, for a nil file too, and does not run here. *)
Definition processEntry (reportDir : string) (st : loadState) (f : FileInfo) : loadState :=
  if bool_decide (filepath_Ext (FileInfo_Name f) <> ".xml"%string) || IsDir f then
    emit [EvDebugf (FileInfo_Name f)] st
  else
    let path := filepath_Join P reportDir (FileInfo_Name f) in
    match os_Open P path with
    | Err err =>
        emit [EvError err] (defer_Close None (emit [EvOpen path None] st))
    | Ok xmlFile =>
        let st := defer_Close (Some xmlFile) (emit [EvOpen path (Some xmlFile)] st) in
        let st := emit [EvReadAll xmlFile] st in
        match ioutil_ReadAll P xmlFile with
        | Err err => emit [EvError err] st
        | Ok b =>
            let st := emit [EvUnmarshal b] st in
            match xml_Unmarshal P b with
            | Err err => emit [EvError err] st
            | Ok xSuite => append xSuite st
            end
        end
    end.

(** The [less] closure handed to [sort.Slice]: called with two indices, it
    compares the suites found there in the slice as it stands. *)
Definition byStartTime (a b : xmlSuite) : bool :=
  let t1 := parseTimeStamp (TimeStamp a) in
  let t2 := parseTimeStamp (TimeStamp b) in
  Time_Before t1 t2.

(** The result is the pair Go returns, with the trace of the call; the
    deferred calls run last, the latest first. *)
Definition parseXMLReport (reportDir : string)
  : list xmlSuite * option error * list event :=
  if bool_decide (String.length reportDir = 0%nat) then
    ([], Some (errorString "report dir could not be empty"), [])
  else
    match ioutil_ReadDir P reportDir with
    | Err err => ([], Some err, [EvReadDir reportDir])
    | Ok files =>
        let st := fold_left (processEntry reportDir) files
                    {| xSuites := []; deferred := [];
                       trace := [EvReadDir reportDir] |} in
        let sorted := sort_Slice P byStartTime (xSuites st) in
        (sorted, None, trace st ++ map EvClose (deferred st))
    end.

Definition LoadXMLReport (dirName : string)
  : option XMLReport * option error * list event :=
  let '(report, err, tr) := parseXMLReport dirName in
  match err with
  | Some e => (None, Some e, tr)
  | None => (Some {| xmlSuites := report |}, None, tr)
  end.

(** The suite an entry yields when every step on it succeeds, in the
    words of the specification: a regular file with extension [.xml]
    that opens, reads and decodes. *)
Definition decodes (reportDir : string) (f : FileInfo) : option xmlSuite :=
  if IsDir f then None
  else if bool_decide (filepath_Ext (FileInfo_Name f) = ".xml"%string) then
    match os_Open P (filepath_Join P reportDir (FileInfo_Name f)) with
    | Err _ => None
    | Ok xmlFile =>
        match ioutil_ReadAll P xmlFile with
        | Err _ => None
        | Ok b =>
            match xml_Unmarshal P b with
            | Err _ => None
            | Ok xSuite => Some xSuite
            end
        end
    end
  else None.

Definition decodedSuites (reportDir : string) (files : list FileInfo) : list xmlSuite :=
  omap (decodes reportDir) files.

End Loader.

(** ** What [sort.Slice] promises

    The standard library sorts in place with an unstable algorithm; it
    promises a rearrangement of the slice in which no element is followed
    by a smaller one, provided [less] is a strict weak order. *)

Record StrictWeakOrder {A} (less : A -> A -> bool) : Prop := {
  less_irrefl : forall a, less a a = false;
  less_trans : forall a b c, less a b = true -> less b c = true -> less a c = true;
  less_incomparable : forall a b c,
    less a b = false -> less b a = false ->
    less b c = false -> less c b = false ->
    less a c = false /\ less c a = false;
}.

Definition SliceSorts {A} (sort : (A -> A -> bool) -> list A -> list A) : Prop :=
  forall less l,
    sort less l ≡ₚ l /\
    (StrictWeakOrder less -> Sorted (fun a b => less b a = false) (sort less l)).

(** ** A platform in memory

    One concrete instance of every parameter: a small directory tree, the
    insertion sort that [sort.Slice] runs on short slices, and the two
    helpers of the package as the specification describes them. *)

Module Demo.

(** Move [x] left past every element it is less than; [rprefix] is the
    sorted prefix, last element first. *)
Fixpoint sink {A} (less : A -> A -> bool) (x : A) (rprefix : list A) : list A :=
  match rprefix with
  | [] => [x]
  | p :: rest => if less x p then p :: sink less x rest else x :: p :: rest
  end.

Definition insertionSort {A} (less : A -> A -> bool) (l : list A) : list A :=
  reverse (fold_left (fun rprefix x => sink less x rprefix) l []).

Definition digit (c : ascii) : option Z :=
  let n := Z.of_nat (nat_of_ascii c) - 48 in
  if bool_decide (0 <= n <= 9) then Some n else None.

Definition number (cs : list ascii) : option Z :=
  foldl (fun acc c =>
           match acc, digit c with
           | Some n, Some d => Some (10 * n + d)
           | _, _ => None
           end) (Some 0) cs.

(** Days from 1970-01-01 to the given day of the civil calendar. *)
Definition daysFromCivil (y m d : Z) : Z :=
  let y' := if m <=? 2 then y - 1 else y in
  let era := y' / 400 in
  let yoe := y' - era * 400 in
  let doy := (153 * (if m >? 2 then m - 3 else m + 9) + 2) / 5 + d - 1 in
  let doe := yoe * 365 + yoe / 4 - yoe / 100 + doy in
  era * 146097 + doe - 719468.

(** Modelled from the spec: [parseTimeStamp] is not in [report.go].  Start
    timestamps are laid out as YYYY-MM-DDTHH:MM:SS, with no zone and no
    fraction; a malformed timestamp yields the zero instant. *)
Definition parseTimeStamp (s : string) : Time :=
  match list_ascii_of_string s with
  | [y1; y2; y3; y4; sep1; m1; m2; sep2; d1; d2; sepT;
     h1; h2; sep3; n1; n2; sep4; s1; s2] =>
      match number [y1; y2; y3; y4], number [m1; m2], number [d1; d2],
            number [h1; h2], number [n1; n2], number [s1; s2] with
      | Some y, Some m, Some d, Some h, Some n, Some sec =>
          if bool_decide ([sep1; sep2; sepT; sep3; sep4]
                          = ["-"; "-"; "T"; ":"; ":"]%char)
             && bool_decide (1 <= m <= 12 /\ 1 <= d <= 31)
             && bool_decide (h < 24 /\ n < 60 /\ sec < 60)
          then ((daysFromCivil y m d * 24 + h) * 60 + n) * 60 * 1000000000
               + sec * 1000000000
          else 0
      | _, _, _, _, _, _ => 0
      end
  | _ => 0
  end.

(** Modelled from the spec: [secondsToDuration] is not in [report.go].  A
    duration is a fractional number of seconds, scaled to nanoseconds; a
    negative or missing value is the zero span. *)
Definition secondsToDuration (seconds : float) : Duration :=
  match Prim2SF seconds with
  | S754_finite false m e =>
      if 0 <=? e then Z.pos m * 2 ^ e * 1000000000
      else (Z.pos m * 1000000000) / 2 ^ (- e)
  | _ => 0
  end.

Definition suite (name stamp : string) (secs : float) (tests failures errors : Z)
    (cases : list xmlTest) : xmlSuite :=
  {| XMLName := "testsuite"; ID := 0; Name := name; PackageName := "rp";
     TimeStamp := stamp; Suite_Time := secs; HostName := "localhost";
     Tests := tests; Failures := failures; Errors := errors;
     Properties := Build_xmlProperties; Cases := cases;
     SystemOut := ""; SystemErr := "" |}.

Definition passing : xmlTest :=
  {| Case_Name := "passes"; ClassName := "rp.T"; Case_Time := 1.5%float;
     Failure := None |}.

Definition failing : xmlTest :=
  {| Case_Name := "fails"; ClassName := "rp.T"; Case_Time := 0.25%float;
     Failure := Some {| Failure_Type := "AssertionError";
                        Failure_Message := "expected 1";
                        Failure_Details := "at rp.T.fails" |} |}.

(** [late] starts after [long], and [long] ends after [late]. *)
Definition late : xmlSuite :=
  suite "late" "2023-01-01T10:00:05" 1%float 2 1 0 [passing; failing].
Definition long : xmlSuite :=
  suite "long" "2023-01-01T10:00:00" 30%float 1 0 0 [passing].

Definition entry (name : string) : FileInfo :=
  {| FileInfo_Name := name; IsDir := false |}.

(** The listing of [reports], in file-name order as [ioutil.ReadDir]
    gives it. *)
Definition listing : list FileInfo :=
  [ entry "a-late.xml";
    {| FileInfo_Name := "archive.xml"; IsDir := true |};
    entry "b-long.xml";
    entry "broken.xml";
    entry "locked.xml";
    entry "notes.txt";
    entry "old.XML";
    entry "short.xml" ].

Definition noEntry (op path : string) : error :=
  libError op (String.append path ": no such file or directory").

Definition ReadDir (dir : string) : result (list FileInfo) :=
  if bool_decide (dir = "reports"%string) then Ok listing
  else if bool_decide (dir = "scratch"%string) then Ok [entry "notes.txt"]
  else Err (noEntry "open" dir).

Definition Open (path : string) : result File :=
  if bool_decide (path = "reports/a-late.xml"%string) then Ok 3
  else if bool_decide (path = "reports/b-long.xml"%string) then Ok 4
  else if bool_decide (path = "reports/broken.xml"%string) then Ok 5
  else if bool_decide (path = "reports/short.xml"%string) then Ok 6
  else if bool_decide (path = "reports/locked.xml"%string) then
    Err (libError "open" "reports/locked.xml: permission denied")
  else Err (noEntry "open" path).

Definition ReadAll (xmlFile : File) : result (list byte) :=
  if xmlFile =? 3 then Ok [x41]
  else if xmlFile =? 4 then Ok [x42]
  else if xmlFile =? 5 then Ok [x3c]
  else Err (libError "read" "unexpected EOF").

Definition Unmarshal (b : list byte) : result xmlSuite :=
  match b with
  | [x41] => Ok late
  | [x42] => Ok long
  | _ => Err (libError "xml" "syntax error")
  end.

Definition Join (dir name : string) : string :=
  String.append dir (String.append "/" name).

Definition platform : Platform :=
  {| ioutil_ReadDir := ReadDir;
     os_Open := Open;
     ioutil_ReadAll := ReadAll;
     xml_Unmarshal := Unmarshal;
     filepath_Join := Join;
     sort_Slice := insertionSort |}.

Definition Load := LoadXMLReport platform parseTimeStamp.

(** What [Load "reports"] returns. *)
Definition report : XMLReport := {| xmlSuites := [long; late] |}.

End Demo.

(** ** [Suite], and what a trace holds *)

Section SuiteItem.

Variable parseTimeStamp : string -> Time.

(** The text of a [TestItemType] constant; the constants are declared in
    another file of the package. *)
Variable TestItemType_text : TestItemType -> string.

(** The item and its [Description], the one field that only [Suite]
    assigns: [fmt.Sprintf("%s %d", TestItemTypeSuite, xSuite.ID)]. *)
Definition Suite (report : XMLReport) (i : Z) : outcome (TestItem * string) :=
  do xSuite <- index (xmlSuites report) i;
  let suiteStart := parseTimeStamp (TimeStamp xSuite) in
  Returns ({| Item_Type := TestItemTypeSuite;
              Item_Name := PackageName xSuite +:+ "." +:+ Name xSuite;
              StartTime := suiteStart |},
           TestItemType_text TestItemTypeSuite +:+ " " +:+ pretty (ID xSuite)).

End SuiteItem.

(** The files of the [os.Open] calls of a trace, the errors it logs, the
    names of its debug lines and the files of its [Close] calls, each in
    order. *)
Definition opens (tr : list event) : list (option File) :=
  omap (fun e => match e with EvOpen _ xmlFile => Some xmlFile | _ => None end) tr.

Definition errors_logged (tr : list event) : list error :=
  omap (fun e => match e with EvError err => Some err | _ => None end) tr.

Definition debug_lines (tr : list event) : list string :=
  omap (fun e => match e with EvDebugf name => Some name | _ => None end) tr.

Definition closes (tr : list event) : list (option File) :=
  omap (fun e => match e with EvClose xmlFile => Some xmlFile | _ => None end) tr.

(** An entry the loop goes on to open. *)
Definition isReport (f : FileInfo) : bool :=
  negb (IsDir f) && bool_decide (filepath_Ext (FileInfo_Name f) = ".xml"%string).

(** An event of a load of [reportDir] is accounted for by the listing
    [files]: a file is opened only at the path of a listed report, read
    only through a handle [os.Open] gave for such a path, and decoded only
    from the bytes [ioutil.ReadAll] gave for such a handle. *)
Definition opened_for (P : Platform) (reportDir : string) (files : list FileInfo)
    (xmlFile : File) : Prop :=
  exists f, f ∈ files /\ isReport f = true /\
            os_Open P (filepath_Join P reportDir (FileInfo_Name f)) = Ok xmlFile.

Definition accounted (P : Platform) (reportDir : string) (files : list FileInfo)
    (e : event) : Prop :=
  match e with
  | EvOpen path xmlFile =>
      exists f, f ∈ files /\ isReport f = true /\
                path = filepath_Join P reportDir (FileInfo_Name f) /\
                xmlFile = match os_Open P path with Ok h => Some h | Err _ => None end
  | EvReadAll xmlFile => opened_for P reportDir files xmlFile
  | EvUnmarshal b =>
      exists xmlFile, opened_for P reportDir files xmlFile /\
                      ioutil_ReadAll P xmlFile = Ok b
  | EvClose (Some xmlFile) => opened_for P reportDir files xmlFile
  | EvDebugf name => exists f, f ∈ files /\ isReport f = false /\ name = FileInfo_Name f
  | EvReadDir dir => dir = reportDir
  | EvError _ | EvClose None => True
  end.

Definition demoTypeText (t : TestItemType) : string :=
  match t with
  | TestItemTypeSuite => "SUITE"
  | TestItemTypeStep => "STEP"
  end.

(** A second platform over the same files: the listing comes in the
    reverse order and the slice is sorted by a merge sort. *)
Definition mergeSort {A} (less : A -> A -> bool) (l : list A) : list A :=
  @merge_sort A (fun a b => less b a = false)
    (fun a b => decide (less b a = false)) l.

Definition reversedPlatform : Platform :=
  {| ioutil_ReadDir := fun dir =>
       match Demo.ReadDir dir with
       | Ok files => Ok (reverse files)
       | Err e => Err e
       end;
     os_Open := Demo.Open;
     ioutil_ReadAll := Demo.ReadAll;
     xml_Unmarshal := Demo.Unmarshal;
     filepath_Join := Demo.Join;
     sort_Slice := mergeSort |}.

(** A third platform, whose listing of [reports] holds the two reports
    that decode and one file that is no report. *)
Definition cleanPlatform : Platform :=
  {| ioutil_ReadDir := fun dir =>
       if bool_decide (dir = "reports"%string) then
         Ok [Demo.entry "a-late.xml"; Demo.entry "notes.txt"; Demo.entry "b-long.xml"]
       else Demo.ReadDir dir;
     os_Open := Demo.Open;
     ioutil_ReadAll := Demo.ReadAll;
     xml_Unmarshal := Demo.Unmarshal;
     filepath_Join := Demo.Join;
     sort_Slice := Demo.insertionSort |}.

(** ** The latest end over all suites *)

Section LatestEnd.

Variable parseTimeStamp : string -> Time.
Variable secondsToDuration : float -> Duration.

(** The end of the interval of a suite, in the words of the specification:
    its start plus its duration. *)
Definition suiteEnd (xSuite : xmlSuite) : Time :=
  parseTimeStamp (TimeStamp xSuite) + secondsToDuration (Suite_Time xSuite).

(** The maximum end time across all suites, in the words of the
    specification; there is none for an empty collection. *)
Fixpoint latestEnd (suites : list xmlSuite) : option Time :=
  match suites with
  | [] => None
  | xSuite :: rest =>
      match latestEnd rest with
      | None => Some (suiteEnd xSuite)
      | Some latest => Some (Z.max (suiteEnd xSuite) latest)
      end
  end.

End LatestEnd.

(** * Properties of the facade *)

Lemma index_in_range {A} (s : list A) (i : Z) :
  0 <= i < Z.of_nat (length s) ->
  exists a, s !! Z.to_nat i = Some a /\ index s i = Returns a.
Proof.
  intros Hi. unfold index.
  rewrite bool_decide_eq_true_2 by done.
  destruct (lookup_lt_is_Some_2 s (Z.to_nat i)) as [a Ha]; [lia|].
  exists a. by rewrite Ha.
Qed.

Lemma index_out_of_range {A} (s : list A) (i : Z) :
  ~ (0 <= i < Z.of_nat (length s)) ->
  index s i = Panics (IndexOutOfRange i (Z.of_nat (length s))).
Proof. intros Hi. unfold index. by rewrite bool_decide_eq_false_2. Qed.

Lemma index_Returns {A} (s : list A) (i : Z) (a : A) :
  index s i = Returns a -> 0 <= i /\ s !! Z.to_nat i = Some a.
Proof.
  unfold index. case_bool_decide as Hi; [|done].
  destruct (s !! Z.to_nat i) eqn:E; [|done].
  intros [= ->]. split; [lia|done].
Qed.

Section FacadeProperties.

Variable parseTimeStamp : string -> Time.
Variable secondsToDuration : float -> Duration.


(** C2: for a suite index in range, [SuiteResult] ends at the parsed start
    of the suite plus its duration; the status is SKIPPED when the test
    count is 0, whatever the failure and error counters are, otherwise
    FAILED when failures > 0 or errors > 0, otherwise PASSED. *)
Theorem SuiteResult_end_and_status (report : XMLReport) (i : Z) :
  0 <= i < SuitesCount report ->
  exists xSuite,
    xmlSuites report !! Z.to_nat i = Some xSuite /\
    SuiteResult parseTimeStamp secondsToDuration report i =
      Returns {| EndTime := parseTimeStamp (TimeStamp xSuite)
                            + secondsToDuration (Suite_Time xSuite);
                 Status :=
                   if bool_decide (Tests xSuite = 0) then ExecutionStatusSkipped
                   else if bool_decide (Failures xSuite > 0 \/ Errors xSuite > 0)
                        then ExecutionStatusFailed
                        else ExecutionStatusPassed |}.
Proof.
  intros Hi. destruct (index_in_range (xmlSuites report) i Hi) as (x & Hx & Hix).
  exists x. split; [done|].
  unfold SuiteResult. rewrite Hix. simpl. unfold Time_Add.
  do 2 f_equal.
  destruct (Z.eqb_spec (Tests x) 0) as [E|E].
  - by rewrite bool_decide_eq_true_2.
  - rewrite bool_decide_eq_false_2 by done.
    destruct (Z.gtb_spec (Failures x) 0), (Z.gtb_spec (Errors x) 0);
      case_bool_decide; try done; lia.
Qed.

(** C3: for a case index pair in range, [TestCase] is a step that starts
    at the parsed start of the owning suite, and [TestCaseResult] ends at
    that start plus the duration of the case, FAILED when the case
    carries a failure and PASSED otherwise, never SKIPPED. *)
Theorem TestCase_inherits_suite_start (report : XMLReport) (i j n : Z) :
  0 <= i < SuitesCount report ->
  TesCaseCount report i = Returns n ->
  0 <= j < n ->
  exists xSuite xCase result,
    xmlSuites report !! Z.to_nat i = Some xSuite /\
    Cases xSuite !! Z.to_nat j = Some xCase /\
    TestCase parseTimeStamp report i j =
      Returns {| Item_Type := TestItemTypeStep;
                 Item_Name := Case_Name xCase;
                 StartTime := parseTimeStamp (TimeStamp xSuite) |} /\
    TestCaseResult parseTimeStamp secondsToDuration report i j = Returns result /\
    EndTime result = parseTimeStamp (TimeStamp xSuite)
                     + secondsToDuration (Case_Time xCase) /\
    Status result = (if bool_decide (Failure xCase <> None)
                     then ExecutionStatusFailed else ExecutionStatusPassed) /\
    Status result <> ExecutionStatusSkipped.
Proof.
  intros Hi Hn Hj.
  destruct (index_in_range (xmlSuites report) i Hi) as (x & Hx & Hix).
  unfold TesCaseCount in Hn. rewrite Hix in Hn. simpl in Hn.
  injection Hn as <-.
  destruct (index_in_range (Cases x) j Hj) as (c & Hc & Hic).
  exists x, c. eexists. split; [done|]. split; [done|].
  unfold TestCase, TestCaseResult.
  rewrite Hix. simpl. rewrite Hic. simpl.
  split; [done|]. split; [done|]. simpl. unfold Time_Add.
  split; [done|]. destruct (Failure c); by case_bool_decide.
Qed.

Lemma latestEnd_bounds (suites : list xmlSuite) (xSuite : xmlSuite) :
  xSuite ∈ suites ->
  exists latest,
    latestEnd parseTimeStamp secondsToDuration suites = Some latest /\
    suiteEnd parseTimeStamp secondsToDuration xSuite <= latest.
Proof.
  induction 1 as [x rest|x y rest Hin IH]; simpl.
  - destruct (latestEnd parseTimeStamp secondsToDuration rest) as [m|];
      eexists; (split; [done|lia]).
  - destruct IH as (m & -> & Hm). eexists. split; [done|lia].
Qed.

(** C4: for a report with at least one suite, [LaunchEndTime] is the
    parsed start of the last suite of the collection plus the duration of
    that suite.  It is not the maximum end time across all suites: it never
    exceeds that maximum, and it is strictly before it as soon as some
    suite ends after the last one does. *)
Theorem LaunchEndTime_is_last_suite_end (report : XMLReport) (final : xmlSuite) :
  last (xmlSuites report) = Some final ->
  LaunchEndTime parseTimeStamp secondsToDuration report =
    Returns (parseTimeStamp (TimeStamp final)
             + secondsToDuration (Suite_Time final)) /\
  exists launchEnd latest,
    LaunchEndTime parseTimeStamp secondsToDuration report = Returns launchEnd /\
    latestEnd parseTimeStamp secondsToDuration (xmlSuites report) = Some latest /\
    launchEnd <= latest /\
    forall earlier,
      earlier ∈ xmlSuites report ->
      parseTimeStamp (TimeStamp final) + secondsToDuration (Suite_Time final)
      < parseTimeStamp (TimeStamp earlier) + secondsToDuration (Suite_Time earlier) ->
      launchEnd < latest.
Proof.
  intros Hlast.
  assert (Hend : LaunchEndTime parseTimeStamp secondsToDuration report =
    Returns (parseTimeStamp (TimeStamp final)
             + secondsToDuration (Suite_Time final))).
  { unfold LaunchEndTime.
    rewrite last_lookup in Hlast.
    assert (Hlen : (0 < length (xmlSuites report))%nat).
    { destruct (xmlSuites report); [done|simpl; lia]. }
    destruct (index_in_range (xmlSuites report)
                (Z.of_nat (length (xmlSuites report)) - 1)) as (x & Hx & Hix);
      [lia|].
    rewrite Hix. simpl.
    replace (Z.to_nat (Z.of_nat (length (xmlSuites report)) - 1))
      with (pred (length (xmlSuites report))) in Hx by lia.
    unfold Time_Add. by simplify_eq. }
  split; [done|].
  assert (Hfinal : final ∈ xmlSuites report).
  { rewrite last_lookup in Hlast. by eapply list_elem_of_lookup_2. }
  destruct (latestEnd_bounds _ _ Hfinal) as (latest & Hlatest & Hle).
  unfold suiteEnd in Hle.
  exists (parseTimeStamp (TimeStamp final) + secondsToDuration (Suite_Time final)), latest.
  split; [done|]. split; [done|]. split; [done|].
  intros earlier Hin Hlater.
  destruct (latestEnd_bounds _ _ Hin) as (latest' & Hlatest' & Hle').
  rewrite Hlatest in Hlatest'. injection Hlatest' as <-.
  unfold suiteEnd in Hle'. lia.
Qed.

(** C9: for a case index pair in range whose case carries no failure,
    [TestCaseFailureDetails] panics on the nil failure; it returns no log
    message. *)
Theorem TestCaseFailureDetails_without_failure_panics
    (report : XMLReport) (i j : Z) :
  HasTestCaseFailure report i j = Returns false ->
  TestCaseFailureDetails parseTimeStamp secondsToDuration report i j = Panics NilDereference /\
  forall message, TestCaseFailureDetails parseTimeStamp secondsToDuration report i j <> Returns message.
Proof.
  unfold HasTestCaseFailure, TestCaseFailureDetails.
  destruct (index (xmlSuites report) i) as [x|] eqn:Hx; [simpl|done].
  destruct (index (Cases x) j) as [c|] eqn:Hc; [simpl|done].
  intros [= Hnone]. apply bool_decide_eq_false in Hnone.
  destruct (Failure c); [by destruct Hnone|]. by simpl.
Qed.

End FacadeProperties.

(** * Properties of the loader *)

(** ** Sorted slices *)

Lemma Sorted_adjacent {A} (R : relation A) (l : list A) (i : nat) (a b : A) :
  Sorted R l -> l !! i = Some a -> l !! S i = Some b -> R a b.
Proof.
  intros Hs. revert i. induction Hs as [|x l Hs IH Hhd]; intros i Ha Hb; [done|].
  destruct i as [|i]; simpl in *.
  - injection Ha as ->. destruct Hhd as [|y l' Hxy]; simpl in Hb; [done|].
    by injection Hb as ->.
  - by eapply IH.
Qed.

Lemma StronglySorted_lookup {A} (R : relation A) (l : list A) (i j : nat) (a b : A) :
  StronglySorted R l -> (i < j)%nat -> l !! i = Some a -> l !! j = Some b -> R a b.
Proof.
  intros Hs. revert i j. induction Hs as [|x l Hs IH Hall]; intros i j Hij Ha Hb; [done|].
  destruct j as [|j]; [lia|]. destruct i as [|i]; simpl in *.
  - injection Ha as ->. rewrite Forall_forall in Hall.
    apply Hall, list_elem_of_lookup. eauto.
  - eapply IH; [|done..]. lia.
Qed.

Section Ordering.

Variable parseTimeStamp : string -> Time.

Lemma byStartTime_false (a b : xmlSuite) :
  byStartTime parseTimeStamp b a = false <->
  parseTimeStamp (TimeStamp a) <= parseTimeStamp (TimeStamp b).
Proof.
  unfold byStartTime, Time_Before. rewrite bool_decide_eq_false. lia.
Qed.

Lemma byStartTime_true (a b : xmlSuite) :
  byStartTime parseTimeStamp a b = true <->
  parseTimeStamp (TimeStamp a) < parseTimeStamp (TimeStamp b).
Proof. unfold byStartTime, Time_Before. by rewrite bool_decide_eq_true. Qed.

Lemma byStartTime_StrictWeakOrder : StrictWeakOrder (byStartTime parseTimeStamp).
Proof.
  split.
  - intros a. apply byStartTime_false. lia.
  - intros a b c. rewrite !byStartTime_true. lia.
  - intros a b c. rewrite !byStartTime_false. lia.
Qed.

Lemma byStartTime_Transitive :
  Transitive (fun a b => byStartTime parseTimeStamp b a = false).
Proof. intros a b c. rewrite !byStartTime_false. lia. Qed.

End Ordering.

(** ** The loop *)

Section LoaderProperties.

Variable P : Platform.
Variable parseTimeStamp : string -> Time.

Lemma processEntry_xSuites (reportDir : string) (st : loadState) (f : FileInfo) :
  xSuites (processEntry P reportDir st f)
  = xSuites st ++ option_list (decodes P reportDir f).
Proof.
  unfold processEntry, decodes.
  destruct (IsDir f); simpl.
  { rewrite orb_true_r. simpl. by rewrite app_nil_r. }
  rewrite orb_false_r.
  destruct (decide (filepath_Ext (FileInfo_Name f) = ".xml"%string)) as [E|E].
  - rewrite bool_decide_eq_false_2 by (by intros []).
    rewrite bool_decide_eq_true_2 by done.
    destruct (os_Open P _) as [h|]; simpl; [|by rewrite app_nil_r].
    destruct (ioutil_ReadAll P h) as [b|]; simpl; [|by rewrite app_nil_r].
    destruct (xml_Unmarshal P b); simpl; [done|by rewrite app_nil_r].
  - rewrite bool_decide_eq_true_2 by done.
    rewrite bool_decide_eq_false_2 by done. simpl. by rewrite app_nil_r.
Qed.

Lemma loop_xSuites (reportDir : string) (files : list FileInfo) (st : loadState) :
  xSuites (fold_left (processEntry P reportDir) files st)
  = xSuites st ++ decodedSuites P reportDir files.
Proof.
  revert st. induction files as [|f files IH]; intros st; simpl.
  - by rewrite app_nil_r.
  - rewrite IH, processEntry_xSuites, <- app_assoc. f_equal.
    unfold decodedSuites. simpl. by destruct (decodes P reportDir f).
Qed.

Lemma processEntry_trace (reportDir : string) (st : loadState) (f : FileInfo) :
  exists evs, trace (processEntry P reportDir st f) = trace st ++ evs.
Proof.
  unfold processEntry.
  destruct (_ || _); [by eexists|].
  destruct (os_Open P _) as [h|]; simpl.
  - destruct (ioutil_ReadAll P h) as [b|]; simpl.
    + destruct (xml_Unmarshal P b); simpl; rewrite <- ?app_assoc; by eexists.
    + rewrite <- ?app_assoc. by eexists.
  - rewrite <- ?app_assoc. by eexists.
Qed.

Lemma open_handles_app (tr evs : list event) :
  open_handles (tr ++ evs) = fold_left track evs (open_handles tr).
Proof. unfold open_handles. by rewrite fold_left_app. Qed.

Lemma processEntry_handles_deferred (reportDir : string) (st : loadState) (f : FileInfo) :
  handles_deferred st -> handles_deferred (processEntry P reportDir st f).
Proof.
  unfold handles_deferred, processEntry. intros Hst.
  destruct (_ || _); simpl.
  { by rewrite open_handles_app. }
  destruct (os_Open P _) as [h|]; simpl.
  - destruct (ioutil_ReadAll P h) as [b|]; simpl.
    + destruct (xml_Unmarshal P b); simpl;
        rewrite !open_handles_app; simpl; by rewrite Hst.
    + rewrite !open_handles_app. simpl. by rewrite Hst.
  - rewrite !open_handles_app. simpl. by rewrite Hst.
Qed.

(** An entry that opens leaves its handle open at the end of the loop body,
    on the read-failure, decode-failure and success paths alike: the only
    [Close] is the deferred one. *)
Lemma processEntry_leaves_handle_open (reportDir : string) (st : loadState)
    (f : FileInfo) (xmlFile : File) :
  IsDir f = false ->
  filepath_Ext (FileInfo_Name f) = ".xml"%string ->
  os_Open P (filepath_Join P reportDir (FileInfo_Name f)) = Ok xmlFile ->
  open_handles (trace (processEntry P reportDir st f))
  = xmlFile :: open_handles (trace st) /\
  deferred (processEntry P reportDir st f) = Some xmlFile :: deferred st.
Proof.
  intros Hdir Hext Hopen. unfold processEntry.
  rewrite Hdir, bool_decide_eq_false_2 by (by intros []). simpl.
  rewrite Hopen.
  destruct (ioutil_ReadAll P xmlFile) as [b|]; simpl.
  - destruct (xml_Unmarshal P b); simpl; by rewrite !open_handles_app.
  - by rewrite !open_handles_app.
Qed.

Lemma loop_handles_deferred (reportDir : string) (files : list FileInfo) (st : loadState) :
  handles_deferred st ->
  handles_deferred (fold_left (processEntry P reportDir) files st).
Proof.
  revert st. induction files as [|f files IH]; intros st Hst; [done|].
  simpl. apply IH. by apply processEntry_handles_deferred.
Qed.

Lemma deferred_calls_release (ds : list (option File)) :
  fold_left track (map EvClose ds) (omap id ds) = [].
Proof.
  induction ds as [|[h|] ds IH]; simpl; [done| |done].
  by rewrite bool_decide_eq_true_2.
Qed.

(** Every handle is released by the time [parseXMLReport] returns. *)
Lemma parseXMLReport_releases_all (reportDir : string) :
  open_handles (parseXMLReport P parseTimeStamp reportDir).2 = [].
Proof.
  unfold parseXMLReport. case_bool_decide; [done|].
  destruct (ioutil_ReadDir P reportDir) as [files|]; [|done]. simpl.
  rewrite open_handles_app.
  rewrite (loop_handles_deferred reportDir files); [|done].
  apply deferred_calls_release.
Qed.

End LoaderProperties.

(** ** Insertion sort keeps the promise of [sort.Slice] *)

Section InsertionSort.

Context {A : Type} (less : A -> A -> bool).

Lemma sink_Permutation (x : A) (rprefix : list A) :
  Demo.sink less x rprefix ≡ₚ x :: rprefix.
Proof.
  induction rprefix as [|p rest IH]; simpl; [done|].
  destruct (less x p); [|done]. by rewrite IH, Permutation_swap.
Qed.

Lemma insertion_loop_Permutation (l rprefix : list A) :
  fold_left (fun rprefix x => Demo.sink less x rprefix) l rprefix ≡ₚ l ++ rprefix.
Proof.
  revert rprefix. induction l as [|x l IH]; intros rprefix; simpl; [done|].
  by rewrite IH, sink_Permutation, Permutation_middle.
Qed.

Hypothesis less_asym : forall a b, less a b = true -> less b a = false.

Lemma sink_HdRel (p x : A) (rprefix : list A) :
  less p x = false ->
  HdRel (fun a b => less a b = false) p rprefix ->
  HdRel (fun a b => less a b = false) p (Demo.sink less x rprefix).
Proof.
  intros Hpx Hhd. destruct rprefix as [|q rest]; simpl; [by constructor|].
  inversion_clear Hhd. destruct (less x q); by constructor.
Qed.

Lemma sink_Sorted (x : A) (rprefix : list A) :
  Sorted (fun a b => less a b = false) rprefix ->
  Sorted (fun a b => less a b = false) (Demo.sink less x rprefix).
Proof.
  induction 1 as [|p rest Hs IH Hhd]; simpl.
  - by repeat constructor.
  - destruct (less x p) eqn:Hxp.
    + constructor; [done|]. apply sink_HdRel; [|done]. by apply less_asym.
    + by repeat constructor.
Qed.

Lemma insertion_loop_Sorted (l rprefix : list A) :
  Sorted (fun a b => less a b = false) rprefix ->
  Sorted (fun a b => less a b = false)
         (fold_left (fun rprefix x => Demo.sink less x rprefix) l rprefix).
Proof.
  revert rprefix. induction l as [|x l IH]; intros rprefix Hs; simpl; [done|].
  by apply IH, sink_Sorted.
Qed.

End InsertionSort.

Lemma StrictWeakOrder_asym {A} (less : A -> A -> bool) :
  StrictWeakOrder less -> forall a b, less a b = true -> less b a = false.
Proof.
  intros [Hirr Htrans _] a b Hab. destruct (less b a) eqn:Hba; [|done].
  by rewrite <- (Hirr a), (Htrans a b a).
Qed.

Lemma insertionSort_sorts {A} : SliceSorts (@Demo.insertionSort A).
Proof.
  intros less l. unfold Demo.insertionSort. split.
  - by rewrite reverse_Permutation, insertion_loop_Permutation, app_nil_r.
  - intros Hless.
    apply (Sorted_reverse (fun a b => less a b = false)).
    apply insertion_loop_Sorted; [|constructor].
    by apply StrictWeakOrder_asym.
Qed.

(** ** The claims about [LoadXMLReport] *)

Lemma parseXMLReport_listed (P : Platform) (parseTimeStamp : string -> Time)
    (reportDir : string) (files : list FileInfo) :
  reportDir <> ""%string ->
  ioutil_ReadDir P reportDir = Ok files ->
  (parseXMLReport P parseTimeStamp reportDir).1
  = (sort_Slice P (byStartTime parseTimeStamp) (decodedSuites P reportDir files), None).
Proof.
  intros Hne Hls. unfold parseXMLReport.
  rewrite bool_decide_eq_false_2 by (by destruct reportDir).
  rewrite Hls. simpl. by rewrite loop_xSuites.
Qed.

Lemma LoadXMLReport_listed (P : Platform) (parseTimeStamp : string -> Time)
    (dirName : string) (files : list FileInfo) :
  dirName <> ""%string ->
  ioutil_ReadDir P dirName = Ok files ->
  (LoadXMLReport P parseTimeStamp dirName).1
  = (Some {| xmlSuites := sort_Slice P (byStartTime parseTimeStamp)
                            (decodedSuites P dirName files) |}, None).
Proof.
  intros Hne Hls. unfold LoadXMLReport.
  pose proof (parseXMLReport_listed P parseTimeStamp dirName files Hne Hls) as H.
  destruct (parseXMLReport P parseTimeStamp dirName) as [[report err] tr].
  simpl in H. by injection H as -> ->.
Qed.

Lemma LoadXMLReport_success (P : Platform) (parseTimeStamp : string -> Time)
    (dirName : string) (report : XMLReport) (tr : list event) :
  LoadXMLReport P parseTimeStamp dirName = (Some report, None, tr) ->
  exists files,
    dirName <> ""%string /\
    ioutil_ReadDir P dirName = Ok files /\
    xmlSuites report
    = sort_Slice P (byStartTime parseTimeStamp) (decodedSuites P dirName files).
Proof.
  unfold LoadXMLReport, parseXMLReport.
  case_bool_decide as Hlen; [done|].
  destruct (ioutil_ReadDir P dirName) as [files|] eqn:Hls; [|done].
  intros [= <- _]. exists files. split; [by intros ->|].
  split; [done|]. simpl. by rewrite loop_xSuites.
Qed.

(** C1: after a successful load the suites are in ascending order of their
    parsed start timestamps, whatever the order of the directory listing:
    no suite starts after its successor, and of two suites with different
    start times the earlier one comes first. *)
Theorem Load_sorted_by_start_time (P : Platform) (parseTimeStamp : string -> Time)
    (dirName : string) (report : XMLReport) (tr : list event) :
  SliceSorts (sort_Slice P) ->
  LoadXMLReport P parseTimeStamp dirName = (Some report, None, tr) ->
  (forall (i : nat) (a b : xmlSuite),
     xmlSuites report !! i = Some a ->
     xmlSuites report !! S i = Some b ->
     Time_After (parseTimeStamp (TimeStamp a)) (parseTimeStamp (TimeStamp b)) = false) /\
  (forall (i j : nat) (a b : xmlSuite),
     xmlSuites report !! i = Some a ->
     xmlSuites report !! j = Some b ->
     Time_Before (parseTimeStamp (TimeStamp a)) (parseTimeStamp (TimeStamp b)) = true ->
     (i < j)%nat).
Proof.
  intros Hsort Hload.
  destruct (LoadXMLReport_success _ _ _ _ _ Hload) as (files & _ & _ & ->).
  destruct (Hsort (byStartTime parseTimeStamp) (decodedSuites P dirName files))
    as [_ Hsorted].
  specialize (Hsorted (byStartTime_StrictWeakOrder parseTimeStamp)).
  split.
  - intros i a b Ha Hb.
    pose proof (Sorted_adjacent _ _ _ _ _ Hsorted Ha Hb) as Hab. simpl in Hab.
    apply byStartTime_false in Hab.
    unfold Time_After. apply bool_decide_eq_false. lia.
  - intros i j a b Ha Hb Hlt.
    unfold Time_Before in Hlt. apply bool_decide_eq_true in Hlt.
    pose proof (byStartTime_Transitive parseTimeStamp) as Htrans.
    apply Sorted_StronglySorted in Hsorted; [|done].
    destruct (decide (i < j)%nat) as [|Hge]; [done|]. exfalso.
    destruct (decide (i = j)) as [->|Hne].
    + rewrite Ha in Hb. injection Hb as ->. lia.
    + assert (Hji : (j < i)%nat) by lia.
      pose proof (StronglySorted_lookup _ _ _ _ _ _ Hsorted Hji Hb Ha) as Hba.
      simpl in Hba. apply byStartTime_false in Hba. lia.
Qed.

(** C5: a load of the empty directory name fails at once, before anything is
    listed, opened or logged, with the error made by this package, which is
    none of the errors of the file system; no report is returned. *)
Theorem Load_empty_directory_name (P : Platform) (parseTimeStamp : string -> Time) :
  LoadXMLReport P parseTimeStamp ""
  = (None, Some (errorString "report dir could not be empty"), []) /\
  forall pkg msg, errorString "report dir could not be empty" <> libError pkg msg.
Proof. split; [reflexivity|discriminate]. Qed.

Lemma LoadXMLReport_unlisted (P : Platform) (parseTimeStamp : string -> Time)
    (dirName : string) (e : error) :
  dirName <> ""%string ->
  ioutil_ReadDir P dirName = Err e ->
  LoadXMLReport P parseTimeStamp dirName = (None, Some e, [EvReadDir dirName]).
Proof.
  intros Hne Hls. unfold LoadXMLReport, parseXMLReport.
  rewrite bool_decide_eq_false_2 by (by destruct dirName).
  by rewrite Hls.
Qed.

(** C6: a load fails, and then returns no report, exactly when the directory
    cannot be listed (the empty name names no directory); when the directory
    is listed the load succeeds whatever happens to the single files, and
    the report holds the suites of the entries that open, read and decode,
    and no others. *)
Theorem Load_fails_only_on_directory (P : Platform) (parseTimeStamp : string -> Time)
    (dirName : string) (report : option XMLReport) (err : option error)
    (tr : list event) :
  SliceSorts (sort_Slice P) ->
  (dirName = ""%string -> is_Err (ioutil_ReadDir P dirName)) ->
  LoadXMLReport P parseTimeStamp dirName = (report, err, tr) ->
  (err <> None <-> is_Err (ioutil_ReadDir P dirName)) /\
  (err <> None -> report = None) /\
  (forall files,
     ioutil_ReadDir P dirName = Ok files ->
     err = None /\
     exists loaded,
       report = Some loaded /\
       xmlSuites loaded ≡ₚ decodedSuites P dirName files /\
       SuitesCount loaded = Z.of_nat (length (decodedSuites P dirName files))).
Proof.
  intros Hsort Hempty Hload.
  destruct (decide (dirName = ""%string)) as [Hdir|Hdir].
  - specialize (Hempty Hdir). subst dirName.
    injection Hload as <- <- <-.
    split; [done|]. split; [done|].
    intros files Hls. by rewrite Hls in Hempty.
  - destruct (ioutil_ReadDir P dirName) as [files|e] eqn:Hls.
    + pose proof (LoadXMLReport_listed P parseTimeStamp _ _ Hdir Hls) as H.
      rewrite Hload in H. simpl in H. injection H as -> ->.
      split; [by split|]. split; [done|].
      intros ? [= <-]. split; [done|]. eexists. split; [done|].
      destruct (Hsort (byStartTime parseTimeStamp) (decodedSuites P dirName files))
        as [Hperm _].
      split; [done|]. unfold SuitesCount. simpl. by rewrite Hperm.
    + rewrite (LoadXMLReport_unlisted P parseTimeStamp _ _ Hdir Hls) in Hload.
      injection Hload as <- <- <-.
      split; [by split|]. by split.
Qed.

(** C7: the loop body goes on to open and decode an entry only if the entry
    is not a directory and the extension of its name is exactly [.xml],
    capitals not matching; any other entry leaves one debug line and
    nothing else: no suite, no error, no file opened. *)
Theorem processEntry_filters_entries (P : Platform) (reportDir : string)
    (st : loadState) (f : FileInfo) :
  (IsDir f = true \/ filepath_Ext (FileInfo_Name f) <> ".xml"%string ->
   xSuites (processEntry P reportDir st f) = xSuites st /\
   deferred (processEntry P reportDir st f) = deferred st /\
   trace (processEntry P reportDir st f) = trace st ++ [EvDebugf (FileInfo_Name f)]) /\
  (forall evs ev,
     trace (processEntry P reportDir st f) = trace st ++ evs ->
     ev ∈ evs ->
     (exists path xmlFile, ev = EvOpen path xmlFile) \/ (exists b, ev = EvUnmarshal b) ->
     IsDir f = false /\ filepath_Ext (FileInfo_Name f) = ".xml"%string) /\
  filepath_Ext "report.XML" <> ".xml"%string.
Proof.
  split; [|split; [|done]].
  - intros Hskip. unfold processEntry.
    assert (bool_decide (filepath_Ext (FileInfo_Name f) <> ".xml"%string)
            || IsDir f = true) as ->; [|done].
    destruct Hskip as [->|Hext]; [apply orb_true_r|].
    by rewrite bool_decide_eq_true_2.
  - intros evs ev Htr Hin Hev. unfold processEntry in Htr.
    destruct (IsDir f); [|case_bool_decide as Hext]; simpl in Htr.
    + rewrite orb_true_r in Htr. simpl in Htr.
      apply app_inv_head in Htr. subst evs.
      apply list_elem_of_singleton in Hin. subst ev.
      by destruct Hev as [(? & ? & ?)|(? & ?)].
    + apply app_inv_head in Htr. subst evs.
      apply list_elem_of_singleton in Hin. subst ev.
      by destruct Hev as [(? & ? & ?)|(? & ?)].
    + split; [done|]. by destruct (decide (filepath_Ext (FileInfo_Name f) = ".xml"%string)).
Qed.

(** C8, as the code has it: the [Close] of an opened file is deferred to the
    return of [parseXMLReport].  In the directory [reports] the handle of
    the first report is still open when the loop body is done with it and
    when the second report is opened, and all four handles are open when
    the loop ends; they are closed afterwards, the latest first. *)
Theorem Load_holds_handles_across_entries :
  let st0 := {| xSuites := []; deferred := []; trace := [EvReadDir "reports"] |} in
  let st1 := processEntry Demo.platform "reports" st0 (Demo.entry "a-late.xml") in
  open_handles (trace st1) = [3] /\
  deferred st1 = [Some 3] /\
  exists before after closes,
    (Demo.Load "reports").2
    = before ++ EvOpen "reports/b-long.xml" (Some 4) :: after ++ closes /\
    open_handles before = [3] /\
    open_handles (before ++ EvOpen "reports/b-long.xml" (Some 4) :: after)
    = [6; 5; 4; 3] /\
    closes = [EvClose (Some 6); EvClose None; EvClose (Some 5);
              EvClose (Some 4); EvClose (Some 3)].
Proof.
  split; [reflexivity|]. split; [reflexivity|].
  exists [EvReadDir "reports"; EvOpen "reports/a-late.xml" (Some 3);
          EvReadAll 3; EvUnmarshal [x41]; EvDebugf "archive.xml"].
  eexists (_ :: _ :: _ :: _ :: _ :: _ :: _ :: _ :: _ :: _ :: _ :: _ :: _ :: []).
  eexists. split; [reflexivity|]. split; [reflexivity|]. split; reflexivity.
Qed.

(** C10: a load of a listed directory in which no entry decodes succeeds
    with a report of no suite, and on that report [LaunchStartTime] and
    [LaunchEndTime] panic on an index out of range. *)
Theorem Load_no_suites_then_launch_times_panic (P : Platform)
    (parseTimeStamp : string -> Time) (secondsToDuration : float -> Duration)
    (dirName : string) (files : list FileInfo) :
  SliceSorts (sort_Slice P) ->
  dirName <> ""%string ->
  ioutil_ReadDir P dirName = Ok files ->
  decodedSuites P dirName files = [] ->
  exists report tr,
    LoadXMLReport P parseTimeStamp dirName = (Some report, None, tr) /\
    SuitesCount report = 0 /\
    LaunchStartTime parseTimeStamp report = Panics (IndexOutOfRange 0 0) /\
    LaunchEndTime parseTimeStamp secondsToDuration report
    = Panics (IndexOutOfRange (-1) 0).
Proof.
  intros Hsort Hdir Hls Hnone.
  pose proof (LoadXMLReport_listed P parseTimeStamp _ _ Hdir Hls) as H.
  destruct (LoadXMLReport P parseTimeStamp dirName) as [[report err] tr].
  simpl in H. injection H as -> ->.
  destruct (Hsort (byStartTime parseTimeStamp) (decodedSuites P dirName files))
    as [Hperm _].
  rewrite Hnone in *. apply Permutation_nil_r in Hperm.
  eexists _, tr. split; [done|].
  unfold SuitesCount, LaunchStartTime, LaunchEndTime. simpl. by rewrite Hperm.
Qed.

(** * The claims on the platform in memory *)

Example Load_reports : (Demo.Load "reports").1 = (Some Demo.report, None).
Proof. reflexivity. Qed.

Lemma Load_reports_trace :
  Demo.Load "reports" = (Some Demo.report, None, (Demo.Load "reports").2).
Proof. vm_compute. reflexivity. Qed.

Example Load_missing_directory :
  (Demo.Load "nowhere").1
  = (None, Some (libError "open" "nowhere: no such file or directory")).
Proof. reflexivity. Qed.

Example Ext_examples :
  map filepath_Ext ["a.xml"; "a.XML"; "a.b/c"; "x/.xml"; "a.xml.bak"; "noext"; "a."]%string
  = [".xml"; ".XML"; ""; ".xml"; ".bak"; ""; "."]%string.
Proof. reflexivity. Qed.

(** A suite that starts at 10:00:00 and a case that lasts 1.5 s: the case
    ends at 10:00:01.5. *)
Example TestCaseResult_end_example :
  TestCaseResult Demo.parseTimeStamp Demo.secondsToDuration Demo.report 0 0
  = Returns {| EndTime := Demo.parseTimeStamp "2023-01-01T10:00:01" + 500000000;
               Status := ExecutionStatusPassed |}.
Proof. reflexivity. Qed.

(** The first suite of [Demo.report] ends 24 s after the launch end. *)
Example LaunchEndTime_before_an_earlier_end :
  LaunchEndTime Demo.parseTimeStamp Demo.secondsToDuration Demo.report
  = Returns (Demo.parseTimeStamp "2023-01-01T10:00:06") /\
  EndTime <$> (match SuiteResult Demo.parseTimeStamp Demo.secondsToDuration Demo.report 0 with
               | Returns r => Some r | Panics _ => None end)
  = Some (Demo.parseTimeStamp "2023-01-01T10:00:30").
Proof. split; reflexivity. Qed.

Lemma Load_sorted_by_start_time_witness :
  Demo.Load "reports"
  = (Some Demo.report, None, (Demo.Load "reports").2) /\
  (forall (i : nat) (a b : xmlSuite),
     xmlSuites Demo.report !! i = Some a ->
     xmlSuites Demo.report !! S i = Some b ->
     Time_After (Demo.parseTimeStamp (TimeStamp a))
                (Demo.parseTimeStamp (TimeStamp b)) = false) /\
  (forall (i j : nat) (a b : xmlSuite),
     xmlSuites Demo.report !! i = Some a ->
     xmlSuites Demo.report !! j = Some b ->
     Time_Before (Demo.parseTimeStamp (TimeStamp a))
                 (Demo.parseTimeStamp (TimeStamp b)) = true ->
     (i < j)%nat).
Proof.
  split; [exact Load_reports_trace|].
  apply (Load_sorted_by_start_time Demo.platform Demo.parseTimeStamp "reports"
           Demo.report (Demo.Load "reports").2);
    [apply insertionSort_sorts | exact Load_reports_trace].
Defined.

Lemma SuiteResult_end_and_status_witness :
  0 <= 1 < SuitesCount Demo.report /\
  exists xSuite,
    xmlSuites Demo.report !! Z.to_nat 1 = Some xSuite /\
    SuiteResult Demo.parseTimeStamp Demo.secondsToDuration Demo.report 1 =
      Returns {| EndTime := Demo.parseTimeStamp (TimeStamp xSuite)
                            + Demo.secondsToDuration (Suite_Time xSuite);
                 Status :=
                   if bool_decide (Tests xSuite = 0) then ExecutionStatusSkipped
                   else if bool_decide (Failures xSuite > 0 \/ Errors xSuite > 0)
                        then ExecutionStatusFailed
                        else ExecutionStatusPassed |}.
Proof.
  assert (Hi : 0 <= 1 < SuitesCount Demo.report) by (unfold SuitesCount; simpl; lia).
  split; [exact Hi|].
  exact (SuiteResult_end_and_status Demo.parseTimeStamp Demo.secondsToDuration
           Demo.report 1 Hi).
Defined.

Lemma TestCase_inherits_suite_start_witness :
  exists xSuite xCase result,
    xmlSuites Demo.report !! Z.to_nat 1 = Some xSuite /\
    Cases xSuite !! Z.to_nat 1 = Some xCase /\
    TestCase Demo.parseTimeStamp Demo.report 1 1 =
      Returns {| Item_Type := TestItemTypeStep;
                 Item_Name := Case_Name xCase;
                 StartTime := Demo.parseTimeStamp (TimeStamp xSuite) |} /\
    TestCaseResult Demo.parseTimeStamp Demo.secondsToDuration Demo.report 1 1
    = Returns result /\
    EndTime result = Demo.parseTimeStamp (TimeStamp xSuite)
                     + Demo.secondsToDuration (Case_Time xCase) /\
    Status result = (if bool_decide (Failure xCase <> None)
                     then ExecutionStatusFailed else ExecutionStatusPassed) /\
    Status result <> ExecutionStatusSkipped.
Proof.
  apply (TestCase_inherits_suite_start Demo.parseTimeStamp Demo.secondsToDuration
           Demo.report 1 1 2).
  - unfold SuitesCount. simpl. lia.
  - reflexivity.
  - lia.
Defined.

Lemma LaunchEndTime_is_last_suite_end_witness :
  last (xmlSuites Demo.report) = Some Demo.late /\
  Demo.long ∈ xmlSuites Demo.report /\
  Demo.parseTimeStamp (TimeStamp Demo.late) + Demo.secondsToDuration (Suite_Time Demo.late)
  < Demo.parseTimeStamp (TimeStamp Demo.long) + Demo.secondsToDuration (Suite_Time Demo.long) /\
  LaunchEndTime Demo.parseTimeStamp Demo.secondsToDuration Demo.report =
    Returns (Demo.parseTimeStamp (TimeStamp Demo.late)
             + Demo.secondsToDuration (Suite_Time Demo.late)) /\
  exists launchEnd latest,
    LaunchEndTime Demo.parseTimeStamp Demo.secondsToDuration Demo.report
    = Returns launchEnd /\
    latestEnd Demo.parseTimeStamp Demo.secondsToDuration (xmlSuites Demo.report)
    = Some latest /\
    launchEnd < latest.
Proof.
  assert (Hin : Demo.long ∈ xmlSuites Demo.report) by apply list_elem_of_here.
  assert (Hlater :
    Demo.parseTimeStamp (TimeStamp Demo.late)
    + Demo.secondsToDuration (Suite_Time Demo.late)
    < Demo.parseTimeStamp (TimeStamp Demo.long)
      + Demo.secondsToDuration (Suite_Time Demo.long)) by reflexivity.
  split; [reflexivity|]. split; [exact Hin|]. split; [exact Hlater|].
  destruct (LaunchEndTime_is_last_suite_end Demo.parseTimeStamp Demo.secondsToDuration
              Demo.report Demo.late eq_refl)
    as (Hend & launchEnd & latest & Hret & Hlatest & _ & Hstrict).
  split; [exact Hend|].
  exists launchEnd, latest.
  split; [exact Hret|]. split; [exact Hlatest|].
  exact (Hstrict Demo.long Hin Hlater).
Defined.

Lemma TestCaseFailureDetails_without_failure_panics_witness :
  HasTestCaseFailure Demo.report 1 0 = Returns false /\
  TestCaseFailureDetails Demo.parseTimeStamp Demo.secondsToDuration Demo.report 1 0
  = Panics NilDereference.
Proof.
  split; [reflexivity|].
  apply (TestCaseFailureDetails_without_failure_panics
           Demo.parseTimeStamp Demo.secondsToDuration Demo.report 1 0).
  reflexivity.
Defined.

Lemma Load_fails_only_on_directory_witness :
  Demo.Load "reports" = (Some Demo.report, None, (Demo.Load "reports").2) /\
  ioutil_ReadDir Demo.platform "reports" = Ok Demo.listing /\
  exists loaded,
    Some Demo.report = Some loaded /\
    xmlSuites loaded ≡ₚ decodedSuites Demo.platform "reports" Demo.listing /\
    SuitesCount loaded
    = Z.of_nat (length (decodedSuites Demo.platform "reports" Demo.listing)).
Proof.
  split; [exact Load_reports_trace|]. split; [reflexivity|].
  apply (Load_fails_only_on_directory Demo.platform Demo.parseTimeStamp "reports"
           (Some Demo.report) None (Demo.Load "reports").2).
  - apply insertionSort_sorts.
  - discriminate.
  - exact Load_reports_trace.
  - reflexivity.
Defined.

Lemma processEntry_filters_entries_witness :
  let st0 := {| xSuites := []; deferred := []; trace := [EvReadDir "reports"] |} in
  filepath_Ext "old.XML" <> ".xml"%string /\
  xSuites (processEntry Demo.platform "reports" st0 (Demo.entry "old.XML")) = [] /\
  deferred (processEntry Demo.platform "reports" st0 (Demo.entry "old.XML")) = [] /\
  trace (processEntry Demo.platform "reports" st0 (Demo.entry "old.XML"))
  = [EvReadDir "reports"; EvDebugf "old.XML"].
Proof.
  assert (Hext : filepath_Ext "old.XML" <> ".xml"%string) by discriminate.
  split; [exact Hext|].
  exact (proj1 (processEntry_filters_entries Demo.platform "reports"
                  {| xSuites := []; deferred := []; trace := [EvReadDir "reports"] |}
                  (Demo.entry "old.XML"))
               (or_intror Hext)).
Defined.

Lemma Load_no_suites_then_launch_times_panic_witness :
  ioutil_ReadDir Demo.platform "scratch" = Ok [Demo.entry "notes.txt"] /\
  decodedSuites Demo.platform "scratch" [Demo.entry "notes.txt"] = [] /\
  exists report tr,
    Demo.Load "scratch" = (Some report, None, tr) /\
    SuitesCount report = 0 /\
    LaunchStartTime Demo.parseTimeStamp report = Panics (IndexOutOfRange 0 0) /\
    LaunchEndTime Demo.parseTimeStamp Demo.secondsToDuration report
    = Panics (IndexOutOfRange (-1) 0).
Proof.
  split; [reflexivity|]. split; [reflexivity|].
  apply (Load_no_suites_then_launch_times_panic Demo.platform Demo.parseTimeStamp
           Demo.secondsToDuration "scratch" [Demo.entry "notes.txt"]).
  - apply insertionSort_sorts.
  - discriminate.
  - reflexivity.
  - reflexivity.
Defined.

(** * Further properties of the facade *)

Section FacadeBounds.

Variable parseTimeStamp : string -> Time.
Variable secondsToDuration : float -> Duration.
Variable TestItemType_text : TestItemType -> string.

(** X1: with a suite index out of range every indexed operation of the
    facade panics on that index, whatever the case index is; none returns
    a value. *)
Theorem suite_index_out_of_range_panics (report : XMLReport) (i : Z) :
  ~ (0 <= i < SuitesCount report) ->
  TesCaseCount report i = Panics (IndexOutOfRange i (SuitesCount report)) /\
  Suite parseTimeStamp TestItemType_text report i
  = Panics (IndexOutOfRange i (SuitesCount report)) /\
  SuiteResult parseTimeStamp secondsToDuration report i
  = Panics (IndexOutOfRange i (SuitesCount report)) /\
  forall j,
    TestCase parseTimeStamp report i j
    = Panics (IndexOutOfRange i (SuitesCount report)) /\
    TestCaseResult parseTimeStamp secondsToDuration report i j
    = Panics (IndexOutOfRange i (SuitesCount report)) /\
    HasTestCaseFailure report i j
    = Panics (IndexOutOfRange i (SuitesCount report)) /\
    TestCaseFailure parseTimeStamp secondsToDuration report i j
    = Panics (IndexOutOfRange i (SuitesCount report)) /\
    TestCaseFailureDetails parseTimeStamp secondsToDuration report i j
    = Panics (IndexOutOfRange i (SuitesCount report)).
Proof.
  intros Hi. pose proof (index_out_of_range (xmlSuites report) i Hi) as Hix.
  unfold TesCaseCount, Suite, SuiteResult, TestCase, TestCaseResult,
    HasTestCaseFailure, TestCaseFailure, TestCaseFailureDetails, SuitesCount.
  rewrite Hix. by repeat split.
Qed.

(** X2: with the suite index in range and a case index outside the cases of
    that suite, every operation on a case panics on the case index. *)
Theorem case_index_out_of_range_panics (report : XMLReport) (i j n : Z) :
  TesCaseCount report i = Returns n ->
  ~ (0 <= j < n) ->
  TestCase parseTimeStamp report i j = Panics (IndexOutOfRange j n) /\
  TestCaseResult parseTimeStamp secondsToDuration report i j
  = Panics (IndexOutOfRange j n) /\
  HasTestCaseFailure report i j = Panics (IndexOutOfRange j n) /\
  TestCaseFailure parseTimeStamp secondsToDuration report i j
  = Panics (IndexOutOfRange j n) /\
  TestCaseFailureDetails parseTimeStamp secondsToDuration report i j
  = Panics (IndexOutOfRange j n).
Proof.
  unfold TesCaseCount, TestCase, TestCaseResult, HasTestCaseFailure,
    TestCaseFailure, TestCaseFailureDetails.
  destruct (index (xmlSuites report) i) as [x|] eqn:Hix; [simpl|done].
  intros [= <-] Hj. rewrite (index_out_of_range (Cases x) j Hj). by repeat split.
Qed.

(** X3: the walk of the reporting layer is safe: for a suite index below
    [SuitesCount] the case count is returned and is not negative, [Suite]
    and [SuiteResult] return, and for every case index below that count
    [TestCase], [TestCaseResult] and [HasTestCaseFailure] return; the two
    failure logs return whenever [HasTestCaseFailure] says true. *)
Theorem walk_in_range_returns (report : XMLReport) (i : Z) :
  0 <= i < SuitesCount report ->
  exists n,
    0 <= n /\
    TesCaseCount report i = Returns n /\
    (exists item, Suite parseTimeStamp TestItemType_text report i = Returns item) /\
    (exists result,
       SuiteResult parseTimeStamp secondsToDuration report i = Returns result) /\
    forall j,
      0 <= j < n ->
      (exists item, TestCase parseTimeStamp report i j = Returns item) /\
      (exists result,
         TestCaseResult parseTimeStamp secondsToDuration report i j = Returns result) /\
      exists failed,
        HasTestCaseFailure report i j = Returns failed /\
        (failed = true ->
         (exists message,
            TestCaseFailure parseTimeStamp secondsToDuration report i j
            = Returns message) /\
         (exists message,
            TestCaseFailureDetails parseTimeStamp secondsToDuration report i j
            = Returns message)).
Proof.
  intros Hi. destruct (index_in_range (xmlSuites report) i Hi) as (x & _ & Hix).
  unfold TesCaseCount, Suite, SuiteResult, TestCase, TestCaseResult,
    HasTestCaseFailure, TestCaseFailure, TestCaseFailureDetails.
  rewrite Hix. simpl. eexists. split; [apply Nat2Z.is_nonneg|].
  split; [done|]. split; [by eexists|]. split; [by eexists|].
  intros j Hj. destruct (index_in_range (Cases x) j Hj) as (c & _ & Hic).
  rewrite Hic. simpl. split; [by eexists|]. split; [by eexists|].
  eexists. split; [done|]. intros Hfailed. apply bool_decide_eq_true in Hfailed.
  destruct (Failure c); [simpl|done]. split; by eexists.
Qed.

(** X4: [TestCaseFailure], like [TestCaseFailureDetails], panics on the nil
    failure of a case that [HasTestCaseFailure] reports as not failed. *)
Theorem TestCaseFailure_without_failure_panics (report : XMLReport) (i j : Z) :
  HasTestCaseFailure report i j = Returns false ->
  TestCaseFailure parseTimeStamp secondsToDuration report i j
  = Panics NilDereference.
Proof.
  unfold HasTestCaseFailure, TestCaseFailure.
  destruct (index (xmlSuites report) i) as [x|] eqn:Hx; [simpl|done].
  destruct (index (Cases x) j) as [c|] eqn:Hc; [simpl|done].
  intros [= Hnone]. apply bool_decide_eq_false in Hnone.
  destruct (Failure c); [by destruct Hnone|]. by simpl.
Qed.

(** X5: for a case that [HasTestCaseFailure] reports as failed, the result
    of the case is FAILED, and the two failure logs carry the message and
    the details of its failure, at error and at info level, both stamped
    with the end time of that result. *)
Theorem failure_logs_match_result (report : XMLReport) (i j : Z) :
  HasTestCaseFailure report i j = Returns true ->
  exists xSuite xCase failure result,
    xmlSuites report !! Z.to_nat i = Some xSuite /\
    Cases xSuite !! Z.to_nat j = Some xCase /\
    Failure xCase = Some failure /\
    TestCaseResult parseTimeStamp secondsToDuration report i j = Returns result /\
    Status result = ExecutionStatusFailed /\
    TestCaseFailure parseTimeStamp secondsToDuration report i j
    = Returns {| Log_Time := EndTime result; Level := LogLevelError;
                 Message := Failure_Message failure |} /\
    TestCaseFailureDetails parseTimeStamp secondsToDuration report i j
    = Returns {| Log_Time := EndTime result; Level := LogLevelInfo;
                 Message := Failure_Details failure |}.
Proof.
  unfold HasTestCaseFailure, TestCaseResult, TestCaseFailure, TestCaseFailureDetails.
  destruct (index (xmlSuites report) i) as [x|] eqn:Hx; [simpl|done].
  destruct (index (Cases x) j) as [c|] eqn:Hc; [simpl|done].
  intros [= Hsome]. apply bool_decide_eq_true in Hsome.
  apply index_Returns in Hx as [_ Hx]. apply index_Returns in Hc as [_ Hc].
  destruct (Failure c) as [failure|] eqn:Hf; [|done].
  exists x, c, failure. eexists. by repeat split.
Qed.

(** X6: on a report with at least one suite the launch starts when
    [Suite 0] starts and ends when the result of the last suite ends. *)
Theorem launch_times_are_first_start_and_last_end (report : XMLReport) :
  0 < SuitesCount report ->
  exists item description result,
    Suite parseTimeStamp TestItemType_text report 0 = Returns (item, description) /\
    LaunchStartTime parseTimeStamp report = Returns (StartTime item) /\
    SuiteResult parseTimeStamp secondsToDuration report (SuitesCount report - 1)
    = Returns result /\
    LaunchEndTime parseTimeStamp secondsToDuration report = Returns (EndTime result).
Proof.
  intros Hn. unfold Suite, LaunchStartTime, SuiteResult, LaunchEndTime, SuitesCount in *.
  destruct (index_in_range (xmlSuites report) 0) as (x & _ & Hx); [lia|].
  destruct (index_in_range (xmlSuites report) (Z.of_nat (length (xmlSuites report)) - 1))
    as (y & _ & Hy); [lia|].
  rewrite Hx, Hy. simpl. by do 3 eexists.
Qed.

(** X7: for a suite index in range [Suite] returns a SUITE item that is
    named package, dot, name, and starts at the parsed start of the suite;
    its description is the text of the SUITE type, a space and the decimal
    id, so that two suites have the same description exactly when they
    have the same id. *)
Theorem Suite_item_and_description (report : XMLReport) (i : Z) :
  0 <= i < SuitesCount report ->
  exists xSuite,
    xmlSuites report !! Z.to_nat i = Some xSuite /\
    Suite parseTimeStamp TestItemType_text report i
    = Returns ({| Item_Type := TestItemTypeSuite;
                  Item_Name := PackageName xSuite +:+ "." +:+ Name xSuite;
                  StartTime := parseTimeStamp (TimeStamp xSuite) |},
               TestItemType_text TestItemTypeSuite +:+ " " +:+ pretty (ID xSuite)) /\
    forall k other item description,
      xmlSuites report !! Z.to_nat k = Some other ->
      Suite parseTimeStamp TestItemType_text report k = Returns (item, description) ->
      (description
       = TestItemType_text TestItemTypeSuite +:+ " " +:+ pretty (ID xSuite)
       <-> ID other = ID xSuite).
Proof.
  intros Hi. destruct (index_in_range (xmlSuites report) i Hi) as (x & Hx & Hix).
  unfold Suite. rewrite Hix. simpl. exists x. split; [done|]. split; [done|].
  intros k other item d' Hk Hret.
  destruct (index (xmlSuites report) k) as [y|] eqn:Hy; [simpl in Hret|done].
  apply index_Returns in Hy as [_ Hy]. rewrite Hk in Hy. injection Hy as <-.
  injection Hret as _ <-. split.
  - intros Heq. apply (inj (String.app _)) in Heq.
    apply (inj (String.app _)) in Heq. by apply (inj pretty).
  - by intros ->.
Qed.

End FacadeBounds.

(** * Further properties of the loader *)

Lemma skip_isReport (f : FileInfo) :
  bool_decide (filepath_Ext (FileInfo_Name f) <> ".xml"%string) || IsDir f
  = negb (isReport f).
Proof.
  unfold isReport. destruct (IsDir f); simpl; [apply orb_true_r|].
  rewrite orb_false_r. by repeat case_bool_decide.
Qed.

Lemma LoadXMLReport_trace (P : Platform) (parseTimeStamp : string -> Time)
    (dirName : string) :
  (LoadXMLReport P parseTimeStamp dirName).2
  = (parseXMLReport P parseTimeStamp dirName).2.
Proof.
  unfold LoadXMLReport.
  destruct (parseXMLReport P parseTimeStamp dirName) as [[report [e|]] tr]; done.
Qed.

Section LoaderTraces.

Variable P : Platform.
Variable parseTimeStamp : string -> Time.
Variable secondsToDuration : float -> Duration.

(** X8: after a successful load the launch starts at the earliest suite
    start and the last suite has the latest one: every suite starts
    between [LaunchStartTime] and the start of the last suite, and the
    launch does not end before it starts when the duration of the last
    suite is not negative. *)
Theorem Load_launch_spans_suite_starts (dirName : string) (report : XMLReport)
    (tr : list event) (xSuite : xmlSuite) :
  SliceSorts (sort_Slice P) ->
  LoadXMLReport P parseTimeStamp dirName = (Some report, None, tr) ->
  xSuite ∈ xmlSuites report ->
  exists final launchStart launchEnd,
    last (xmlSuites report) = Some final /\
    LaunchStartTime parseTimeStamp report = Returns launchStart /\
    LaunchEndTime parseTimeStamp secondsToDuration report = Returns launchEnd /\
    launchStart <= parseTimeStamp (TimeStamp xSuite) /\
    parseTimeStamp (TimeStamp xSuite) <= parseTimeStamp (TimeStamp final) /\
    launchEnd = parseTimeStamp (TimeStamp final) + secondsToDuration (Suite_Time final) /\
    (0 <= secondsToDuration (Suite_Time final) -> launchStart <= launchEnd).
Proof.
  intros Hsort Hload Hin.
  destruct (LoadXMLReport_success _ _ _ _ _ Hload) as (files & _ & _ & Hrep).
  destruct (Hsort (byStartTime parseTimeStamp) (decodedSuites P dirName files))
    as [_ Hsorted].
  specialize (Hsorted (byStartTime_StrictWeakOrder parseTimeStamp)).
  rewrite <- Hrep in Hsorted.
  pose proof (byStartTime_Transitive parseTimeStamp) as Htrans.
  apply Sorted_StronglySorted in Hsorted; [|done].
  apply list_elem_of_lookup in Hin as [k Hk].
  pose proof (lookup_lt_Some _ _ _ Hk) as Hlen.
  destruct (index_in_range (xmlSuites report) 0) as (x0 & H0 & Hi0); [lia|].
  destruct (index_in_range (xmlSuites report)
              (Z.of_nat (length (xmlSuites report)) - 1)) as (xn & Hn & Hin); [lia|].
  replace (Z.to_nat (Z.of_nat (length (xmlSuites report)) - 1))
    with (pred (length (xmlSuites report))) in Hn by lia.
  change (Z.to_nat 0) with 0%nat in H0.
  assert (Hlo : parseTimeStamp (TimeStamp x0) <= parseTimeStamp (TimeStamp xSuite)).
  { destruct (decide (k = 0%nat)) as [->|Hne].
    - rewrite H0 in Hk. injection Hk as ->. lia.
    - apply byStartTime_false.
      apply (StronglySorted_lookup _ _ 0 k _ _ Hsorted); [lia|done..]. }
  assert (Hhi : parseTimeStamp (TimeStamp xSuite) <= parseTimeStamp (TimeStamp xn)).
  { destruct (decide (k = pred (length (xmlSuites report)))) as [->|Hne].
    - rewrite Hn in Hk. injection Hk as ->. lia.
    - apply byStartTime_false.
      apply (StronglySorted_lookup _ _ k (pred (length (xmlSuites report))) _ _ Hsorted);
        [lia|done..]. }
  exists xn. do 2 eexists.
  unfold LaunchStartTime, LaunchEndTime. rewrite Hi0, Hin. simpl.
  split; [by rewrite last_lookup|]. split; [done|]. split; [done|].
  unfold Time_Add. repeat split; lia.
Qed.

(** The stack of deferred calls holds the files of the [os.Open] calls so
    far, the latest first, and nothing is closed during the loop. *)
Lemma processEntry_defers_every_open (reportDir : string) (st : loadState) (f : FileInfo) :
  deferred st = reverse (opens (trace st)) /\ closes (trace st) = [] ->
  deferred (processEntry P reportDir st f)
  = reverse (opens (trace (processEntry P reportDir st f))) /\
  closes (trace (processEntry P reportDir st f)) = [].
Proof.
  intros [Hd Hc]. unfold processEntry, opens, closes in *.
  destruct (_ || _); simpl.
  { rewrite !omap_app, Hc. simpl. by rewrite app_nil_r. }
  destruct (os_Open P _) as [h|]; simpl.
  - destruct (ioutil_ReadAll P h) as [b|]; simpl.
    + destruct (xml_Unmarshal P b); simpl;
        rewrite !omap_app, Hc; simpl; rewrite ?app_nil_r, reverse_snoc; by rewrite Hd.
    + rewrite !omap_app, Hc. simpl. rewrite ?app_nil_r, reverse_snoc. by rewrite Hd.
  - rewrite !omap_app, Hc. simpl. rewrite ?app_nil_r, reverse_snoc. by rewrite Hd.
Qed.

Lemma loop_defers_every_open (reportDir : string) (files : list FileInfo) (st : loadState) :
  deferred st = reverse (opens (trace st)) /\ closes (trace st) = [] ->
  deferred (fold_left (processEntry P reportDir) files st)
  = reverse (opens (trace (fold_left (processEntry P reportDir) files st))) /\
  closes (trace (fold_left (processEntry P reportDir) files st)) = [].
Proof.
  revert st. induction files as [|f files IH]; intros st Hst; [done|].
  simpl. by apply IH, processEntry_defers_every_open.
Qed.

(** X9: the trace of [parseXMLReport] is that of the loop followed by one
    [Close] for each [os.Open] call of the loop, failed ones included, in
    the reverse order of the calls; nothing is closed before the loop is
    over, and no handle is open after the last [Close]. *)
Theorem parseXMLReport_closes_every_open_in_reverse (reportDir : string) :
  exists body,
    (parseXMLReport P parseTimeStamp reportDir).2
    = body ++ map EvClose (reverse (opens body)) /\
    closes body = [] /\
    open_handles (parseXMLReport P parseTimeStamp reportDir).2 = [].
Proof.
  pose proof (parseXMLReport_releases_all P parseTimeStamp reportDir) as Hrel.
  revert Hrel. unfold parseXMLReport. case_bool_decide.
  { intros _. by exists []. }
  destruct (ioutil_ReadDir P reportDir) as [files|].
  - simpl. intros Hrel.
    destruct (loop_defers_every_open reportDir files
                {| xSuites := []; deferred := []; trace := [EvReadDir reportDir] |})
      as [Hd Hc]; [done|].
    exists (trace (fold_left (processEntry P reportDir) files
                     {| xSuites := []; deferred := [];
                        trace := [EvReadDir reportDir] |})).
    split; [by rewrite <- Hd|]. by split.
  - intros _. by exists [EvReadDir reportDir].
Qed.

End LoaderTraces.

Section LoaderAccounts.

Variable P : Platform.
Variable parseTimeStamp : string -> Time.

Lemma closes_log_nothing (ds : list (option File)) :
  debug_lines (map EvClose ds) = [] /\ errors_logged (map EvClose ds) = [] /\
  opens (map EvClose ds) = [].
Proof. induction ds as [|d ds IH]; [done|]. simpl. apply IH. Qed.

Lemma processEntry_accounts (reportDir : string) (st : loadState) (f : FileInfo) :
  debug_lines (trace (processEntry P reportDir st f))
  = debug_lines (trace st) ++ (if isReport f then [] else [FileInfo_Name f]) /\
  (length (xSuites (processEntry P reportDir st f))
   + length (errors_logged (trace (processEntry P reportDir st f)))
   = length (xSuites st) + length (errors_logged (trace st))
     + (if isReport f then 1 else 0))%nat.
Proof.
  unfold processEntry. rewrite skip_isReport.
  unfold debug_lines, errors_logged.
  destruct (isReport f); simpl.
  - destruct (os_Open P _) as [h|]; simpl.
    + destruct (ioutil_ReadAll P h) as [b|]; simpl.
      * destruct (xml_Unmarshal P b); simpl;
          rewrite !omap_app, ?length_app; simpl; rewrite ?app_nil_r;
          (split; [done|lia]).
      * rewrite !omap_app, ?length_app. simpl. rewrite ?app_nil_r. split; [done|lia].
    + rewrite !omap_app, ?length_app. simpl. rewrite ?app_nil_r. split; [done|lia].
  - rewrite !omap_app, ?length_app. simpl. rewrite ?app_nil_r. split; [done|lia].
Qed.

Lemma loop_accounts (reportDir : string) (files : list FileInfo) (st : loadState) :
  debug_lines (trace (fold_left (processEntry P reportDir) files st))
  = debug_lines (trace st)
    ++ (FileInfo_Name <$> filter (fun f => isReport f = false) files) /\
  (length (xSuites (fold_left (processEntry P reportDir) files st))
   + length (errors_logged (trace (fold_left (processEntry P reportDir) files st)))
   = length (xSuites st) + length (errors_logged (trace st))
     + length (filter (fun f => isReport f = true) files))%nat.
Proof.
  revert st. induction files as [|f files IH]; intros st; simpl.
  { rewrite app_nil_r. split; [done|lia]. }
  destruct (IH (processEntry P reportDir st f)) as [-> ->].
  destruct (processEntry_accounts reportDir st f) as [-> ->].
  rewrite !filter_cons. destruct (isReport f); simpl.
  - rewrite app_nil_r. split; [done|lia].
  - rewrite <- app_assoc. split; [done|lia].
Qed.

Lemma filter_isReport_length (files : list FileInfo) :
  (length (filter (fun f => isReport f = true) files)
   + length (filter (fun f => isReport f = false) files) = length files)%nat.
Proof.
  induction files as [|f files IH]; [done|].
  rewrite !filter_cons. destruct (isReport f); simpl; lia.
Qed.

Lemma parseXMLReport_counts (reportDir : string) (files : list FileInfo) :
  SliceSorts (sort_Slice P) ->
  reportDir <> ""%string ->
  ioutil_ReadDir P reportDir = Ok files ->
  exists suites tr,
    parseXMLReport P parseTimeStamp reportDir = (suites, None, tr) /\
    debug_lines tr = FileInfo_Name <$> filter (fun f => isReport f = false) files /\
    (length suites + length (errors_logged tr)
     = length (filter (fun f => isReport f = true) files))%nat.
Proof.
  intros Hsort Hne Hls. unfold parseXMLReport.
  rewrite bool_decide_eq_false_2 by (by destruct reportDir).
  rewrite Hls. do 2 eexists. split; [done|].
  destruct (loop_accounts reportDir files
              {| xSuites := []; deferred := []; trace := [EvReadDir reportDir] |})
    as [Hdebug Hcount].
  simpl in Hdebug, Hcount.
  destruct (closes_log_nothing
              (deferred (fold_left (processEntry P reportDir) files
                 {| xSuites := []; deferred := []; trace := [EvReadDir reportDir] |})))
    as (Hcd & Hce & _).
  destruct (Hsort (byStartTime parseTimeStamp)
              (xSuites (fold_left (processEntry P reportDir) files
                 {| xSuites := []; deferred := []; trace := [EvReadDir reportDir] |})))
    as [Hperm _].
  assert (Hd : forall tr ds, debug_lines (tr ++ map EvClose ds) = debug_lines tr).
  { intros tr ds. unfold debug_lines. rewrite omap_app.
    destruct (closes_log_nothing ds) as (Hx & _). unfold debug_lines in Hx.
    by rewrite Hx, app_nil_r. }
  assert (He : forall tr ds, errors_logged (tr ++ map EvClose ds) = errors_logged tr).
  { intros tr ds. unfold errors_logged. rewrite omap_app.
    destruct (closes_log_nothing ds) as (_ & Hx & _). unfold errors_logged in Hx.
    by rewrite Hx, app_nil_r. }
  rewrite Hd, He, Hperm, Hdebug, Hcount. by split.
Qed.

(** X10: every listed entry is accounted for exactly once: the debug lines
    are the names of the entries that are directories or lack the
    extension, in listing order, and each other entry gives either a suite
    or one error line; so suites, error lines and debug lines add up to
    the length of the listing. *)
Theorem parseXMLReport_accounts_for_every_entry (reportDir : string)
    (files : list FileInfo) :
  SliceSorts (sort_Slice P) ->
  reportDir <> ""%string ->
  ioutil_ReadDir P reportDir = Ok files ->
  exists suites tr,
    parseXMLReport P parseTimeStamp reportDir = (suites, None, tr) /\
    debug_lines tr = FileInfo_Name <$> filter (fun f => isReport f = false) files /\
    (length suites + length (errors_logged tr)
     = length (filter (fun f => isReport f = true) files))%nat /\
    (length suites + length (errors_logged tr) + length (debug_lines tr)
     = length files)%nat.
Proof.
  intros Hsort Hne Hls.
  destruct (parseXMLReport_counts reportDir files Hsort Hne Hls)
    as (suites & tr & Hparse & Hdebug & Hcount).
  exists suites, tr. split; [done|]. split; [done|]. split; [done|].
  rewrite Hcount, Hdebug, length_fmap. apply filter_isReport_length.
Qed.

Lemma processEntry_accounted (reportDir : string) (files : list FileInfo)
    (st : loadState) (f : FileInfo) :
  f ∈ files ->
  Forall (accounted P reportDir files) (trace st) ->
  Forall (accounted P reportDir files) (map EvClose (deferred st)) ->
  Forall (accounted P reportDir files) (trace (processEntry P reportDir st f)) /\
  Forall (accounted P reportDir files)
         (map EvClose (deferred (processEntry P reportDir st f))).
Proof.
  intros Hf Htr Hds. unfold processEntry. rewrite skip_isReport.
  destruct (isReport f) eqn:Hrep; simpl.
  - destruct (os_Open P _) as [h|] eqn:Hopen; simpl.
    + assert (Hfor : opened_for P reportDir files h) by (by exists f).
      assert (Hop : accounted P reportDir files
                      (EvOpen (filepath_Join P reportDir (FileInfo_Name f)) (Some h))).
      { exists f. by rewrite Hopen. }
      destruct (ioutil_ReadAll P h) as [b|] eqn:Hread; simpl.
      * assert (Hun : accounted P reportDir files (EvUnmarshal b)) by (by exists h).
        destruct (xml_Unmarshal P b); simpl;
          rewrite ?Forall_app, ?Forall_cons, ?Forall_nil; by repeat split.
      * rewrite ?Forall_app, ?Forall_cons, ?Forall_nil. by repeat split.
    + rewrite ?Forall_app, ?Forall_cons, ?Forall_nil. repeat split; try done.
      exists f. by rewrite Hopen.
  - rewrite ?Forall_app, ?Forall_cons, ?Forall_nil. repeat split; try done.
    by exists f.
Qed.

Lemma loop_accounted (reportDir : string) (files rest : list FileInfo) (st : loadState) :
  rest ⊆ files ->
  Forall (accounted P reportDir files) (trace st) ->
  Forall (accounted P reportDir files) (map EvClose (deferred st)) ->
  Forall (accounted P reportDir files)
         (trace (fold_left (processEntry P reportDir) rest st)) /\
  Forall (accounted P reportDir files)
         (map EvClose (deferred (fold_left (processEntry P reportDir) rest st))).
Proof.
  revert st. induction rest as [|f rest IH]; intros st Hsub Htr Hds; [done|].
  simpl.
  destruct (processEntry_accounted reportDir files st f) as [Htr' Hds'];
    [apply Hsub; constructor|done|done|].
  apply IH; [|done..]. intros x Hx. apply Hsub. by constructor.
Qed.

(** X11: a load touches nothing but the reports of the listing: a file is
    opened only at the path of a listed entry that is a regular [.xml]
    file, read and closed only through a handle that [os.Open] gave for
    such a path, and decoded only from bytes read through such a handle;
    a debug line names a listed entry that is not a report. *)
Theorem parseXMLReport_touches_only_listed_reports (reportDir : string)
    (files : list FileInfo) :
  reportDir <> ""%string ->
  ioutil_ReadDir P reportDir = Ok files ->
  Forall (accounted P reportDir files) (parseXMLReport P parseTimeStamp reportDir).2.
Proof.
  intros Hne Hls. unfold parseXMLReport.
  rewrite bool_decide_eq_false_2 by (by destruct reportDir).
  rewrite Hls. simpl.
  destruct (loop_accounted reportDir files files
              {| xSuites := []; deferred := []; trace := [EvReadDir reportDir] |})
    as [Htr Hds]; [done| |done|].
  { by repeat constructor. }
  by apply Forall_app.
Qed.

(** X12: a load that returns an error returns no report and has opened,
    closed and logged nothing; the error is the one of this package when
    the name is empty, and otherwise the very error [ioutil.ReadDir] gave. *)
Theorem Load_failure_leaves_no_effects (dirName : string)
    (report : option XMLReport) (e : error) (tr : list event) :
  LoadXMLReport P parseTimeStamp dirName = (report, Some e, tr) ->
  report = None /\
  opens tr = [] /\ closes tr = [] /\ errors_logged tr = [] /\ debug_lines tr = [] /\
  ((dirName = ""%string /\ e = errorString "report dir could not be empty" /\ tr = [])
   \/ (dirName <> ""%string /\ ioutil_ReadDir P dirName = Err e
       /\ tr = [EvReadDir dirName])).
Proof.
  unfold LoadXMLReport, parseXMLReport. case_bool_decide as Hlen.
  - intros [= <- <- <-]. repeat split; try done. left. by destruct dirName.
  - destruct (ioutil_ReadDir P dirName) as [files|e'] eqn:Hls; [done|].
    intros [= <- <- <-]. repeat split; try done. right.
    split; [by intros ->|done].
Qed.

End LoaderAccounts.

Lemma mergeSort_sorts {A} : SliceSorts (@mergeSort A).
Proof.
  intros less l. unfold mergeSort. split; [apply merge_sort_Permutation|].
  intros Hless. apply Sorted_merge_sort.
  intros a b. destruct (less b a) eqn:Hba; [right|by left].
  by apply StrictWeakOrder_asym.
Qed.

Lemma decodes_ext (P1 P2 : Platform) (reportDir : string) (f : FileInfo) :
  os_Open P1 = os_Open P2 ->
  ioutil_ReadAll P1 = ioutil_ReadAll P2 ->
  xml_Unmarshal P1 = xml_Unmarshal P2 ->
  filepath_Join P1 = filepath_Join P2 ->
  decodes P1 reportDir f = decodes P2 reportDir f.
Proof. unfold decodes. by intros -> -> -> ->. Qed.

Lemma decodedSuites_ext (P1 P2 : Platform) (reportDir : string) (files : list FileInfo) :
  os_Open P1 = os_Open P2 ->
  ioutil_ReadAll P1 = ioutil_ReadAll P2 ->
  xml_Unmarshal P1 = xml_Unmarshal P2 ->
  filepath_Join P1 = filepath_Join P2 ->
  decodedSuites P1 reportDir files = decodedSuites P2 reportDir files.
Proof.
  intros Hopen Hread Hdec Hjoin. unfold decodedSuites.
  apply list_omap_ext, Forall2_same_length_lookup. split; [done|].
  intros i f g Hf Hg. rewrite Hf in Hg. injection Hg as <-.
  by apply decodes_ext.
Qed.

(** X13: when the decoded suites have pairwise different start times, the
    loaded report does not depend on the order of the listing nor on the
    sorting algorithm: two platforms with the same files, whose listings
    of the directory are rearrangements of each other, load the same
    report. *)
Theorem Load_independent_of_listing_order (P1 P2 : Platform)
    (parseTimeStamp : string -> Time) (dirName : string)
    (files1 files2 : list FileInfo) :
  SliceSorts (sort_Slice P1) ->
  SliceSorts (sort_Slice P2) ->
  os_Open P1 = os_Open P2 ->
  ioutil_ReadAll P1 = ioutil_ReadAll P2 ->
  xml_Unmarshal P1 = xml_Unmarshal P2 ->
  filepath_Join P1 = filepath_Join P2 ->
  dirName <> ""%string ->
  ioutil_ReadDir P1 dirName = Ok files1 ->
  ioutil_ReadDir P2 dirName = Ok files2 ->
  files1 ≡ₚ files2 ->
  (forall a b,
     a ∈ decodedSuites P1 dirName files1 ->
     b ∈ decodedSuites P1 dirName files1 ->
     parseTimeStamp (TimeStamp a) = parseTimeStamp (TimeStamp b) -> a = b) ->
  (LoadXMLReport P1 parseTimeStamp dirName).1
  = (LoadXMLReport P2 parseTimeStamp dirName).1.
Proof.
  intros Hs1 Hs2 Hopen Hread Hdec Hjoin Hne Hl1 Hl2 Hperm Hkeys.
  rewrite (LoadXMLReport_listed P1 parseTimeStamp _ _ Hne Hl1).
  rewrite (LoadXMLReport_listed P2 parseTimeStamp _ _ Hne Hl2).
  do 3 f_equal.
  assert (Hd : decodedSuites P2 dirName files2 ≡ₚ decodedSuites P1 dirName files1).
  { rewrite <- (decodedSuites_ext P1 P2) by done.
    unfold decodedSuites. by rewrite Hperm. }
  destruct (Hs1 (byStartTime parseTimeStamp) (decodedSuites P1 dirName files1))
    as [Hp1 Hsorted1].
  destruct (Hs2 (byStartTime parseTimeStamp) (decodedSuites P2 dirName files2))
    as [Hp2 Hsorted2].
  pose proof (byStartTime_Transitive parseTimeStamp) as Htrans.
  specialize (Hsorted1 (byStartTime_StrictWeakOrder parseTimeStamp)).
  specialize (Hsorted2 (byStartTime_StrictWeakOrder parseTimeStamp)).
  apply Sorted_StronglySorted in Hsorted1; [|done].
  apply Sorted_StronglySorted in Hsorted2; [|done].
  apply (StronglySorted_unique_strong
           (fun a b : xmlSuite => byStartTime parseTimeStamp b a = false));
    [|done|done|by rewrite Hp1, Hp2, Hd].
  intros a b Ha Hb Hab Hba. simpl in Hab, Hba.
  apply byStartTime_false in Hab. apply byStartTime_false in Hba.
  apply Hkeys; [by rewrite <- Hp1|by rewrite <- Hd, <- Hp2|lia].
Qed.

(** ** The extension filter *)

Lemma list_ascii_of_string_app (a b : string) :
  list_ascii_of_string (a +:+ b) = list_ascii_of_string a ++ list_ascii_of_string b.
Proof. induction a as [|c a IH]; simpl; [done|]. by rewrite IH. Qed.

Lemma Ext_scan_found (rpath suffix : list ascii) :
  Ext_scan rpath suffix <> [] ->
  exists seen rest,
    rpath = seen ++ "."%char :: rest /\
    Ext_scan rpath suffix = "."%char :: rev seen ++ suffix.
Proof.
  revert suffix. induction rpath as [|c rpath IH]; intros suffix; simpl; [done|].
  destruct (IsPathSeparator c); [done|].
  case_bool_decide as Hdot.
  - intros _. exists [], rpath. by subst c.
  - intros Hne. destruct (IH _ Hne) as (seen & rest & -> & ->).
    exists (c :: seen), rest. split; [done|]. simpl. by rewrite <- app_assoc.
Qed.

Lemma Ext_xml_iff_suffix (name : string) :
  filepath_Ext name = ".xml"%string <-> exists base, name = base +:+ ".xml".
Proof.
  unfold filepath_Ext. split.
  - intros Hext.
    apply (f_equal list_ascii_of_string) in Hext.
    rewrite list_ascii_of_string_of_list_ascii in Hext. simpl in Hext.
    destruct (Ext_scan_found (rev (list_ascii_of_string name)) [])
      as (seen & rest & Hrev & Hscan); [by rewrite Hext|].
    rewrite Hext, app_nil_r in Hscan. injection Hscan as Hseen.
    apply (f_equal (@rev ascii)) in Hseen. rewrite rev_involutive in Hseen.
    simpl in Hseen. subst seen.
    apply (f_equal (@rev ascii)) in Hrev. rewrite rev_involutive in Hrev.
    exists (string_of_list_ascii (rev rest)).
    rewrite <- (string_of_list_ascii_of_string name), Hrev.
    rewrite <- (string_of_list_ascii_of_string (_ +:+ _)), list_ascii_of_string_app.
    rewrite list_ascii_of_string_of_list_ascii. f_equal.
    simpl. by rewrite <- !app_assoc.
  - intros [base ->].
    rewrite list_ascii_of_string_app, rev_app_distr. reflexivity.
Qed.

(** X14: the loop body tries to open an entry exactly when the entry is not
    a directory and its name ends in [.xml], whatever comes before, even
    nothing. *)
Theorem processEntry_opens_iff_xml_suffix (P : Platform) (reportDir : string)
    (st : loadState) (f : FileInfo) :
  (exists path xmlFile evs,
     trace (processEntry P reportDir st f) = trace st ++ EvOpen path xmlFile :: evs)
  <-> IsDir f = false /\ exists base, FileInfo_Name f = base +:+ ".xml".
Proof.
  rewrite <- Ext_xml_iff_suffix. unfold processEntry.
  destruct (IsDir f); simpl.
  { rewrite orb_true_r. simpl. split; [|by intros []].
    intros (path & h & evs & Htr). by apply app_inv_head in Htr. }
  rewrite orb_false_r. case_bool_decide as Hext; simpl.
  - split; [|by intros []].
    intros (path & h & evs & Htr). by apply app_inv_head in Htr.
  - split; [intros _; split; [done|]|intros _].
    { by destruct (decide (filepath_Ext (FileInfo_Name f) = ".xml"%string)). }
    destruct (os_Open P _) as [h|]; simpl.
    + destruct (ioutil_ReadAll P h) as [b|]; simpl.
      * destruct (xml_Unmarshal P b); simpl; rewrite <- ?app_assoc; by do 3 eexists.
      * rewrite <- ?app_assoc. by do 3 eexists.
    + rewrite <- ?app_assoc. by do 3 eexists.
Qed.

Lemma decodes_isReport (P : Platform) (reportDir : string) (f : FileInfo) :
  isReport f = false -> decodes P reportDir f = None.
Proof.
  unfold isReport, decodes. destruct (IsDir f); [done|]. simpl.
  by intros ->.
Qed.

(** X15: when every listed regular [.xml] file opens, reads and decodes, the
    loaded report has one suite for each of them and no other, and no error
    is logged. *)
Theorem Load_all_reports_well_formed (P : Platform) (parseTimeStamp : string -> Time)
    (dirName : string) (files : list FileInfo) :
  SliceSorts (sort_Slice P) ->
  dirName <> ""%string ->
  ioutil_ReadDir P dirName = Ok files ->
  (forall f, f ∈ files -> isReport f = true -> decodes P dirName f <> None) ->
  exists report tr,
    LoadXMLReport P parseTimeStamp dirName = (Some report, None, tr) /\
    SuitesCount report
    = Z.of_nat (length (filter (fun f => isReport f = true) files)) /\
    errors_logged tr = [].
Proof.
  intros Hsort Hne Hls Hall.
  destruct (parseXMLReport_counts P parseTimeStamp dirName files
              Hsort Hne Hls) as (suites & tr & Hparse & _ & Hcount).
  pose proof (parseXMLReport_listed P parseTimeStamp dirName files Hne Hls) as Hres.
  rewrite Hparse in Hres. simpl in Hres. injection Hres as Hsuites.
  unfold LoadXMLReport. rewrite Hparse. do 2 eexists. split; [done|].
  assert (Hlen : length suites = length (filter (fun f => isReport f = true) files)).
  { rewrite Hsuites.
    destruct (Hsort (byStartTime parseTimeStamp) (decodedSuites P dirName files))
      as [Hperm _].
    rewrite Hperm. clear -Hall. unfold decodedSuites.
    induction files as [|f files IH]; [done|].
    rewrite filter_cons. simpl.
    destruct (isReport f) eqn:Hrep; simpl.
    - destruct (decodes P dirName f) eqn:Hdec.
      + simpl. f_equal. apply IH. intros g Hg. apply Hall. by constructor.
      + destruct (Hall f); [constructor|done..].
    - rewrite (decodes_isReport _ _ _ Hrep). apply IH.
      intros g Hg. apply Hall. by constructor. }
  split.
  - unfold SuitesCount. simpl. by rewrite Hlen.
  - apply nil_length_inv. lia.
Qed.

(** * The further properties on the platforms in memory *)

Lemma suite_index_out_of_range_panics_witness :
  ~ (0 <= 2 < SuitesCount Demo.report) /\
  SuiteResult Demo.parseTimeStamp Demo.secondsToDuration Demo.report 2
  = Panics (IndexOutOfRange 2 (SuitesCount Demo.report)).
Proof.
  assert (Hi : ~ (0 <= 2 < SuitesCount Demo.report))
    by (unfold SuitesCount; simpl; lia).
  split; [exact Hi|].
  apply (suite_index_out_of_range_panics Demo.parseTimeStamp Demo.secondsToDuration
           demoTypeText Demo.report 2 Hi).
Defined.

Lemma case_index_out_of_range_panics_witness :
  TesCaseCount Demo.report 1 = Returns 2 /\
  HasTestCaseFailure Demo.report 1 2 = Panics (IndexOutOfRange 2 2).
Proof.
  split; [reflexivity|].
  apply (case_index_out_of_range_panics Demo.parseTimeStamp Demo.secondsToDuration
           Demo.report 1 2 2); [reflexivity|lia].
Defined.

Lemma walk_in_range_returns_witness :
  0 <= 1 < SuitesCount Demo.report /\
  exists n, 0 <= n /\ TesCaseCount Demo.report 1 = Returns n.
Proof.
  assert (Hi : 0 <= 1 < SuitesCount Demo.report) by (unfold SuitesCount; simpl; lia).
  split; [exact Hi|].
  destruct (walk_in_range_returns Demo.parseTimeStamp Demo.secondsToDuration
              demoTypeText Demo.report 1 Hi) as (n & Hn & Hcount & _).
  exists n. split; [exact Hn|exact Hcount].
Defined.

Lemma TestCaseFailure_without_failure_panics_witness :
  HasTestCaseFailure Demo.report 1 0 = Returns false /\
  TestCaseFailure Demo.parseTimeStamp Demo.secondsToDuration Demo.report 1 0
  = Panics NilDereference.
Proof.
  split; [reflexivity|].
  apply (TestCaseFailure_without_failure_panics
           Demo.parseTimeStamp Demo.secondsToDuration Demo.report 1 0).
  reflexivity.
Defined.

Lemma failure_logs_match_result_witness :
  HasTestCaseFailure Demo.report 1 1 = Returns true /\
  exists result,
    TestCaseResult Demo.parseTimeStamp Demo.secondsToDuration Demo.report 1 1
    = Returns result /\
    Status result = ExecutionStatusFailed.
Proof.
  split; [reflexivity|].
  destruct (failure_logs_match_result Demo.parseTimeStamp Demo.secondsToDuration
              Demo.report 1 1 eq_refl)
    as (_ & _ & _ & result & _ & _ & _ & Hres & Hstatus & _).
  exists result. split; [exact Hres|exact Hstatus].
Defined.

Lemma launch_times_are_first_start_and_last_end_witness :
  0 < SuitesCount Demo.report /\
  exists item description,
    Suite Demo.parseTimeStamp demoTypeText Demo.report 0 = Returns (item, description) /\
    LaunchStartTime Demo.parseTimeStamp Demo.report = Returns (StartTime item).
Proof.
  assert (Hn : 0 < SuitesCount Demo.report) by (unfold SuitesCount; simpl; lia).
  split; [exact Hn|].
  destruct (launch_times_are_first_start_and_last_end Demo.parseTimeStamp
              Demo.secondsToDuration demoTypeText Demo.report Hn)
    as (item & description & _ & Hsuite & Hstart & _).
  exists item, description. split; [exact Hsuite|exact Hstart].
Defined.

Lemma Suite_item_and_description_witness :
  0 <= 0 < SuitesCount Demo.report /\
  Suite Demo.parseTimeStamp demoTypeText Demo.report 0
  = Returns ({| Item_Type := TestItemTypeSuite;
                Item_Name := "rp.long";
                StartTime := Demo.parseTimeStamp "2023-01-01T10:00:00" |},
             "SUITE 0"%string).
Proof.
  assert (Hi : 0 <= 0 < SuitesCount Demo.report) by (unfold SuitesCount; simpl; lia).
  split; [exact Hi|].
  destruct (Suite_item_and_description Demo.parseTimeStamp demoTypeText Demo.report 0 Hi)
    as (xSuite & Hx & Hsuite & _).
  injection Hx as <-. exact Hsuite.
Defined.

Lemma Load_launch_spans_suite_starts_witness :
  Demo.long ∈ xmlSuites Demo.report /\
  exists final launchStart launchEnd,
    last (xmlSuites Demo.report) = Some final /\
    LaunchStartTime Demo.parseTimeStamp Demo.report = Returns launchStart /\
    LaunchEndTime Demo.parseTimeStamp Demo.secondsToDuration Demo.report
    = Returns launchEnd /\
    launchStart <= Demo.parseTimeStamp (TimeStamp Demo.long) /\
    Demo.parseTimeStamp (TimeStamp Demo.long) <= Demo.parseTimeStamp (TimeStamp final) /\
    launchEnd = Demo.parseTimeStamp (TimeStamp final)
                + Demo.secondsToDuration (Suite_Time final) /\
    (0 <= Demo.secondsToDuration (Suite_Time final) -> launchStart <= launchEnd).
Proof.
  assert (Hin : Demo.long ∈ xmlSuites Demo.report) by apply list_elem_of_here.
  split; [exact Hin|].
  exact (Load_launch_spans_suite_starts Demo.platform Demo.parseTimeStamp
           Demo.secondsToDuration "reports" Demo.report (Demo.Load "reports").2
           Demo.long insertionSort_sorts Load_reports_trace Hin).
Defined.

Lemma parseXMLReport_accounts_for_every_entry_witness :
  ioutil_ReadDir Demo.platform "reports" = Ok Demo.listing /\
  exists suites tr,
    parseXMLReport Demo.platform Demo.parseTimeStamp "reports" = (suites, None, tr) /\
    debug_lines tr
    = FileInfo_Name <$> filter (fun f => isReport f = false) Demo.listing /\
    (length suites + length (errors_logged tr)
     = length (filter (fun f => isReport f = true) Demo.listing))%nat /\
    (length suites + length (errors_logged tr) + length (debug_lines tr)
     = length Demo.listing)%nat.
Proof.
  split; [reflexivity|].
  apply (parseXMLReport_accounts_for_every_entry Demo.platform Demo.parseTimeStamp
           "reports" Demo.listing);
    [apply insertionSort_sorts|discriminate|reflexivity].
Defined.

Lemma parseXMLReport_touches_only_listed_reports_witness :
  ioutil_ReadDir Demo.platform "reports" = Ok Demo.listing /\
  Forall (accounted Demo.platform "reports" Demo.listing)
         (parseXMLReport Demo.platform Demo.parseTimeStamp "reports").2.
Proof.
  split; [reflexivity|].
  apply (parseXMLReport_touches_only_listed_reports Demo.platform Demo.parseTimeStamp
           "reports" Demo.listing); [discriminate|reflexivity].
Defined.

Lemma Load_missing_directory_trace :
  Demo.Load "nowhere"
  = (None, Some (libError "open" "nowhere: no such file or directory"),
     [EvReadDir "nowhere"]).
Proof. vm_compute. reflexivity. Qed.

Lemma Load_failure_leaves_no_effects_witness :
  Demo.Load "nowhere"
  = (None, Some (libError "open" "nowhere: no such file or directory"),
     [EvReadDir "nowhere"]) /\
  opens [EvReadDir "nowhere"] = [] /\
  ioutil_ReadDir Demo.platform "nowhere"
  = Err (libError "open" "nowhere: no such file or directory").
Proof.
  split; [exact Load_missing_directory_trace|].
  destruct (Load_failure_leaves_no_effects Demo.platform Demo.parseTimeStamp "nowhere"
              None (libError "open" "nowhere: no such file or directory")
              [EvReadDir "nowhere"] Load_missing_directory_trace)
    as (_ & Hopens & _ & _ & _ & [(Hempty & _)|(_ & Hls & _)]).
  - discriminate Hempty.
  - split; [exact Hopens|exact Hls].
Defined.

Lemma decodedSuites_reports :
  decodedSuites Demo.platform "reports" Demo.listing = [Demo.late; Demo.long].
Proof. vm_compute. reflexivity. Qed.

Lemma Load_independent_of_listing_order_witness :
  ioutil_ReadDir reversedPlatform "reports" = Ok (reverse Demo.listing) /\
  (LoadXMLReport Demo.platform Demo.parseTimeStamp "reports").1
  = (LoadXMLReport reversedPlatform Demo.parseTimeStamp "reports").1.
Proof.
  split; [reflexivity|].
  apply (Load_independent_of_listing_order Demo.platform reversedPlatform
           Demo.parseTimeStamp "reports" Demo.listing (reverse Demo.listing));
    try reflexivity.
  - apply insertionSort_sorts.
  - apply mergeSort_sorts.
  - discriminate.
  - symmetry. apply reverse_Permutation.
  - rewrite decodedSuites_reports. intros a b Ha Hb.
    apply list_elem_of_In in Ha, Hb. simpl in Ha, Hb.
    destruct Ha as [<-|[<-|[]]], Hb as [<-|[<-|[]]];
      try reflexivity; vm_compute; discriminate.
Defined.

Lemma Load_all_reports_well_formed_witness :
  exists report tr,
    LoadXMLReport cleanPlatform Demo.parseTimeStamp "reports" = (Some report, None, tr) /\
    SuitesCount report = 2 /\
    errors_logged tr = [].
Proof.
  apply (Load_all_reports_well_formed cleanPlatform Demo.parseTimeStamp "reports"
           [Demo.entry "a-late.xml"; Demo.entry "notes.txt"; Demo.entry "b-long.xml"]).
  - apply insertionSort_sorts.
  - discriminate.
  - reflexivity.
  - intros f Hf Hrep. apply list_elem_of_In in Hf. simpl in Hf.
    destruct Hf as [<-|[<-|[<-|[]]]];
      first [discriminate Hrep | vm_compute; discriminate].
Defined.
